(** * COCO dataset extractor: a shallow embedding of [coco_to_yolo_extractor.py]

    The development follows the class [COCOConverter]:
    - the JSON records of a COCO annotation file ([category], [image],
      [annotation], [coco_data]) and the attributes of [self] ([converter]);
    - Python's numbers behind the interface [PyNum], with two instances of
      IEEE binary64 (what CPython's [float] is): the primitive floats, which
      compute, and the rationals with the rounding written out, on which the
      error of an operation can be bounded;
    - Python's [set] as stdpp's [gset]; the order in which a set is iterated
      is not fixed by the language and is taken from the environment;
    - exceptions as the [Raise] case of [result]; prints, file copies and file
      writes as events of a log ([io]).

    Directory creation ([os.makedirs]) and the progress bar ([tqdm]) have no
    observable result here and are left out. *)

From Stdlib Require Import ZArith QArith Qround Qabs Lqa Uint63 Ascii String.
From Stdlib.Floats Require Import PrimFloat SpecFloat FloatOps.
From stdpp Require Import gmap strings list pretty.

(* [set_solver] clears hypotheses that are sometimes already gone. *)
#[local] Set Warnings "-clear-no-such-hyp".

Open Scope string_scope.
Open Scope list_scope.
Open Scope Z_scope.

(** ** Exceptions *)

(** [OSError] stands for what the file system raises ([FileNotFoundError]
    and the like). *)
Inductive exn : Type :=
| ZeroDivisionError
| ValueError
| TypeError
| UnboundLocalError
| OSError.

Inductive result (A : Type) : Type :=
| Ok (a : A)
| Raise (e : exn).
Arguments Ok {A} a.
Arguments Raise {A} e.

#[export] Instance result_ret : MRet result := fun A a => Ok a.

#[export] Instance result_bind : MBind result := fun A B k r =>
  match r with
  | Ok a => k a
  | Raise e => Raise e
  end.

(** ** Numbers

    The operations the program applies to JSON numbers and to
    [background_percentage]. [num_quot] is the quotient for a non-zero
    divisor; Python's [/] is [py_div], which raises on a zero divisor. *)

Class PyNum (num : Type) : Type := {
  num_of_Z : Z -> num;
  num_add : num -> num -> num;
  num_mul : num -> num -> num;
  num_quot : num -> num -> num;
  num_is_zero : num -> bool;
  num_ltb : num -> num -> bool
}.

Definition py_div {num : Type} `{PyNum num} (a b : num) : result num :=
  if num_is_zero b then Raise ZeroDivisionError else Ok (num_quot a b).

(** binary64. An [int] operand is converted first; the conversion is exact
    below 2^53 in absolute value, which covers set sizes and pixel counts. *)
Definition float_of_Z (z : Z) : float :=
  if z <? 0 then PrimFloat.opp (PrimFloat.of_uint63 (Uint63.of_Z (- z)))
  else PrimFloat.of_uint63 (Uint63.of_Z z).

#[export] Instance float_PyNum : PyNum float := {|
  num_of_Z := float_of_Z;
  num_add := PrimFloat.add;
  num_mul := PrimFloat.mul;
  num_quot := PrimFloat.div;
  num_is_zero := fun x => PrimFloat.eqb x PrimFloat.zero;
  num_ltb := PrimFloat.ltb
|}.

(** binary64 written out over the rationals: an operation is the exact one
    followed by the rounding of binary64, to the nearest number with a
    significand of 53 bits, and to the one with the even significand when
    two are equally near. The exponent is not bounded: these are the
    numbers of CPython as long as an operation neither overflows nor
    underflows. *)

(** The integer nearest to [N / D], for [D > 0]; the even one of two that
    are equally near. *)
Definition round_half_even (N D : Z) : Z :=
  let f := N / D in
  let r := N mod D in
  if 2 * r <? D then f
  else if D <? 2 * r then f + 1
  else if Z.even f then f else f + 1.

(** For [q = n / d] up to its sign, [K = 2^(b+53)] and [P0 = 2^a], where
    [a] and [b] are the positions of the leading bits of [n] and [d]:
    [n * K / (d * P0)] lies between 2^52 and 2^54, and [P] is the power of
    two that brings [n * K / (d * P)] below 2^53. This quotient, rounded to
    an integer, is the significand, and [P / K] is the weight of its last
    bit. *)
Definition round53 (q : Q) : Q :=
  let n := Z.abs (Qnum q) in
  let d := Zpos (Qden q) in
  if n =? 0 then 0%Q
  else
    let K := 2 ^ (Z.log2 d + 53) in
    let P0 := 2 ^ Z.log2 n in
    let P := if 2 ^ 53 * (d * P0) <=? n * K then 2 * P0 else P0 in
    Qred ((Z.sgn (Qnum q) * round_half_even (n * K) (d * P) * P)
          # Z.to_pos K).

(** Half the distance from 1 to the next binary64 number: 2^-53. *)
Definition unit_roundoff : Q := 1 # 9007199254740992.

#[export] Instance rounded_PyNum : PyNum Q := {|
  num_of_Z := fun z => round53 (inject_Z z);
  num_add := fun x y => round53 (x + y);
  num_mul := fun x y => round53 (x * y);
  num_quot := fun x y => round53 (x / y);
  num_is_zero := fun x => Qeq_bool x 0;
  num_ltb := fun x y => negb (Qle_bool y x)
|}.

(** The rational that a primitive float holds, when it is finite. *)
Definition Q_of_float (f : float) : option Q :=
  match Prim2SF f with
  | S754_zero _ => Some 0%Q
  | S754_finite s m e =>
      let z := if s then Z.neg m else Z.pos m in
      Some (Qred (if 0 <=? e then inject_Z (z * 2 ^ e)
                  else z # Z.to_pos (2 ^ (- e))))
  | S754_infinity _ | S754_nan => None
  end.

(** The primitive float [f] holds the rational [q]. *)
Definition same_number (f : float) (q : Q) : bool :=
  match Q_of_float f with
  | Some r => Qeq_bool r q
  | None => false
  end.

(** ** The records of a COCO annotation file *)

Record category : Type := {
  cat_id : Z;
  cat_name : string;
  cat_supercategory : string
}.

(** [ann['bbox']] is the list [[x, y, w, h]]; its entries are [bbox[0]] to
    [bbox[3]]. *)
Record bbox_t (num : Type) : Type := {
  bbox0 : num;
  bbox1 : num;
  bbox2 : num;
  bbox3 : num
}.
Arguments bbox0 {num}.
Arguments bbox1 {num}.
Arguments bbox2 {num}.
Arguments bbox3 {num}.

(** [width] and [height] are JSON numbers like the entries of a box; the
    program only divides by them. *)
Record image (num : Type) : Type := {
  img_id : Z;
  file_name : string;
  width : num;
  height : num
}.
Arguments img_id {num}.
Arguments file_name {num}.
Arguments width {num}.
Arguments height {num}.

Record annotation (num : Type) : Type := {
  image_id : Z;
  category_id : Z;
  bbox : bbox_t num
}.
Arguments image_id {num}.
Arguments category_id {num}.
Arguments bbox {num}.

(** The parsed annotation file. The keys ['categories'] and ['annotations']
    are read with [.get(key, [])]: an absent key is the empty list. The key
    ['images'] is read with [coco_data['images']] on line 95 and has to be
    there. *)
Record coco_data (num : Type) : Type := {
  images : list (image num);
  categories : list category;
  annotations : list (annotation num)
}.
Arguments images {num}.
Arguments categories {num}.
Arguments annotations {num}.

(** ** The attributes of [self] set by [parse_arguments] *)

Record converter (num : Type) : Type := {
  coco_annotation_train : string;
  coco_image_dir_train : string;
  coco_annotation_val : string;
  coco_image_dir_val : string;
  coco_annotation_test : string;
  coco_image_dir_test : string;
  output_dir : string;
  target_classes : list string;
  background_percentage : num;
  test_num_images : option Z;
  test_only_target_classes : bool;
  create_single_class : bool;
  single_class_name : string;
  convert_to_yolo : bool
}.
Arguments coco_annotation_train {num}.
Arguments coco_image_dir_train {num}.
Arguments coco_annotation_val {num}.
Arguments coco_image_dir_val {num}.
Arguments coco_annotation_test {num}.
Arguments coco_image_dir_test {num}.
Arguments output_dir {num}.
Arguments target_classes {num}.
Arguments background_percentage {num}.
Arguments test_num_images {num}.
Arguments test_only_target_classes {num}.
Arguments create_single_class {num}.
Arguments single_class_name {num}.
Arguments convert_to_yolo {num}.

(** ** Paths: [os.path.join] and [os.path.splitext] on POSIX *)

Definition ends_with_sep (s : string) : bool :=
  match last (String.list_ascii_of_string s) with
  | Some c => bool_decide (c = "/"%char)
  | None => false
  end.

Definition starts_with_sep (s : string) : bool :=
  match s with
  | String c _ => bool_decide (c = "/"%char)
  | EmptyString => false
  end.

(** One step of [posixpath.join]: an absolute component restarts the path. *)
Definition path_join2 (path b : string) : string :=
  if starts_with_sep b then b
  else if bool_decide (path = EmptyString) || ends_with_sep path then path +:+ b
  else path +:+ "/" +:+ b.

Definition path_join (a : string) (p : list string) : string :=
  foldl path_join2 a p.

(** The separator of ['\n'.join(...)]. *)
Definition newline : string := String "010"%char EmptyString.

(** Index of the last occurrence of [c], as [str.rfind]; [None] is -1. *)
Fixpoint rfind_from (c : ascii) (l : list ascii) (i : nat) (acc : option nat)
  : option nat :=
  match l with
  | [] => acc
  | x :: l' =>
      rfind_from c l' (S i) (if bool_decide (x = c) then Some i else acc)
  end.

Definition rfind (c : ascii) (l : list ascii) : option nat :=
  rfind_from c l 0%nat None.

(** The root part of [os.path.splitext(p)]: the extension starts at the last
    dot, when that dot comes after the last separator and some character
    between them is not a dot. *)
Definition splitext_root (p : string) : string :=
  let l := String.list_ascii_of_string p in
  match rfind "."%char l with
  | None => p
  | Some dot =>
      let start := match rfind "/"%char l with
                   | Some sep => S sep
                   | None => 0%nat
                   end in
      if bool_decide (start <= dot)%nat
         && existsb (fun c => negb (bool_decide (c = "."%char)))
                    (take (dot - start) (drop start l))
      then String.string_of_list_ascii (take dot l)
      else p
  end.

(** ** Outputs: label payloads, messages and the event log *)

(** One line [f"{category_id} {x_center} {y_center} {width} {height}\n"] of a
    YOLO label file, before the numbers are printed. *)
Record yolo_line (num : Type) : Type := {
  line_class : nat;
  line_x_center : num;
  line_y_center : num;
  line_width : num;
  line_height : num
}.
Arguments line_class {num}.
Arguments line_x_center {num}.
Arguments line_y_center {num}.
Arguments line_width {num}.
Arguments line_height {num}.

(** What is written to a file: the text of a manifest, the lines of a label
    file (no line is the empty string, which is also what a background image
    gets in both modes), or [json.dumps({'annotations': anns})]. *)
Inductive file_content (num : Type) : Type :=
| Manifest (text : string)
| LabelText (lines : list (yolo_line num))
| LabelJson (anns : list (annotation num)).
Arguments Manifest {num} text.
Arguments LabelText {num} lines.
Arguments LabelJson {num} anns.

(** The [print] calls, one constructor per format string. *)
Inductive message (num : Type) : Type :=
| MsgProcessing (dataset_type : string)
| MsgTestAnnotationNotFound (coco_annotation_file : string)
| MsgTestStored (dataset_type path : string) (total : nat)
| MsgNumberOfImages (dataset_type : string) (n : nat)
| MsgConvertingTarget (dataset_type : string)
| MsgConvertingAll (dataset_type : string)
| MsgConvertingBackground (dataset_type : string) (percentage : num)
| MsgConverted (dataset_type : string)
| MsgStored (dataset_type path : string) (total : nat)
| MsgAnnotationFileNotFound (coco_annotation_file : string)
| MsgImageInfoNotFound (image_id : Z).
Arguments MsgProcessing {num}.
Arguments MsgTestAnnotationNotFound {num}.
Arguments MsgTestStored {num}.
Arguments MsgNumberOfImages {num}.
Arguments MsgConvertingTarget {num}.
Arguments MsgConvertingAll {num}.
Arguments MsgConvertingBackground {num}.
Arguments MsgConverted {num}.
Arguments MsgStored {num}.
Arguments MsgAnnotationFileNotFound {num}.
Arguments MsgImageInfoNotFound {num}.

Inductive event (num : Type) : Type :=
| Print (m : message num)
| Copy (src dst : string)
| WriteFile (path : string) (content : file_content num).
Arguments Print {num}.
Arguments Copy {num}.
Arguments WriteFile {num}.

(** A computation with effects: the events it performed, in order, and its
    result. An exception keeps the events performed before it.

    The exceptions of a computation are those that the statements of the
    program raise themselves: a copy, a listing and a write are taken to
    succeed, and a run stands for a run in which these calls succeed. What
    happens when a copy or a write fails is [with_failures], below. *)
Definition io (num A : Type) : Type := (list (event num) * result A)%type.

Definition io_ret {num A} (a : A) : io num A := ([], Ok a).

Definition io_bind {num A B} (m : io num A) (k : A -> io num B) : io num B :=
  match m with
  | (log, Ok a) => let '(log', r) := k a in (log ++ log', r)
  | (log, Raise e) => (log, Raise e)
  end.

Definition emit {num} (e : event num) : io num unit := ([e], Ok tt).

Definition lift {num A} (r : result A) : io num A := ([], r).

Declare Scope io_scope.
Delimit Scope io_scope with io.
Notation "'do' x <- m ; k" := (io_bind m (fun x => k))
  (at level 10, x name, m at level 100, k at level 200) : io_scope.
Notation "'run' m ; k" := (io_bind m (fun _ => k))
  (at level 10, m at level 100, k at level 200) : io_scope.

(** The last content written to [path], if any. *)
Definition written {num} (log : list (event num)) (path : string)
  : option (file_content num) :=
  foldl (fun acc e =>
           match e with
           | WriteFile p c => if bool_decide (p = path) then Some c else acc
           | _ => acc
           end) None log.

(** A copy or a write that fails raises, and nothing in the program catches
    the exception: the run stops there, the events before it done. [fails e]
    is the exception of the call behind the event [e], if it fails. *)
Fixpoint first_failure {num} (fails : event num -> option exn)
    (log : list (event num)) : option (list (event num) * exn) :=
  match log with
  | [] => None
  | e :: rest =>
      match fails e with
      | Some x => Some ([], x)
      | None =>
          match first_failure fails rest with
          | Some (done, x) => Some (e :: done, x)
          | None => None
          end
      end
  end.

Definition with_failures {num A} (fails : event num -> option exn)
    (m : io num A) : io num A :=
  match first_failure fails m.1 with
  | Some (done, x) => (done, Raise x)
  | None => m
  end.

(** The outside world: annotation files that exist, with their parsed content
    ([os.path.exists] then [json.load]), directory listings ([os.listdir]),
    the choices of [random.sample], whether [random.sample] takes a set for
    its population (it does up to Python 3.10, and raises [TypeError] from
    Python 3.11 on), and the order in which the interpreter iterates a set
    of ints and a set of strings. *)
Record environment (num : Type) : Type := {
  read_annotations : string -> option (coco_data num);
  listdir : string -> list string;
  random_choice : list string -> Z -> list string;
  sample_accepts_set : bool;
  iter_ids : gset Z -> list Z;
  iter_names : gset string -> list string
}.
Arguments read_annotations {num}.
Arguments listdir {num}.
Arguments random_choice {num}.
Arguments sample_accepts_set {num}.
Arguments iter_ids {num}.
Arguments iter_names {num}.

(** Iterating a set visits each of its elements once. *)
Definition iterates_sets {num} (env : environment num) : Prop :=
  (forall s, iter_ids env s ≡ₚ elements s)
  /\ (forall s, iter_names env s ≡ₚ elements s).

(** [random.sample(population, k)] raises [ValueError] unless
    [0 <= k <= len(population)]. *)
Definition random_sample {num} (env : environment num)
    (population : list string) (k : Z) : result (list string) :=
  if (0 <=? k) && (k <=? Z.of_nat (length population))
  then Ok (random_choice env population k)
  else Raise ValueError.

(** [random.sample] on a set: where it is accepted, the set is turned into
    the sequence of its elements in iteration order. *)
Definition random_sample_of_set {num} (env : environment num)
    (population : gset string) (k : Z) : result (list string) :=
  if sample_accepts_set env
  then random_sample env (iter_names env population) k
  else Raise TypeError.

(** Truth value of an [Optional[int]] and of an [Optional[str]]. *)
Definition truthy_int (o : option Z) : bool :=
  match o with
  | Some k => negb (k =? 0)
  | None => false
  end.

Definition truthy_str (o : option string) : bool :=
  match o with
  | Some s => negb (bool_decide (s = EmptyString))
  | None => false
  end.

(** ** The methods of [COCOConverter] *)

Section Methods.
Context {num : Type} `{!PyNum num}.
Variable self : converter num.

(** [next((cat['name'] for cat in coco_data.get('categories', [])
          if cat['id'] == category_id), None)] *)
Definition category_name_of (data : coco_data num) (cid : Z)
  : option string :=
  cat_name <$> find (fun cat => bool_decide (cat_id cat = cid))
                    (categories data).

(** [category_name in self.target_classes]; [None] is in no list of
    strings. *)
Definition in_target_classes (category_name : option string) : bool :=
  match category_name with
  | Some name => bool_decide (name ∈ target_classes self)
  | None => false
  end.

(** [self.target_classes.index(category_name)
     if not self.create_single_class else 0] *)
Definition output_class (category_name : option string) : result nat :=
  if negb (create_single_class self) then
    match category_name with
    | Some name =>
        match list_find (fun c => c = name) (target_classes self) with
        | Some (i, _) => Ok i
        | None => Raise ValueError
        end
    | None => Raise ValueError
    end
  else Ok 0%nat.

(** The body of the [if] of [coco_to_yolo_format], lines 165 to 179. *)
Definition yolo_line_of (img_info : image num) (ann : annotation num)
    (category_name : option string) : result (yolo_line num) :=
  category_id ← output_class category_name;
  let bbox := bbox ann in
  let x_center := num_add (bbox0 bbox) (num_quot (bbox2 bbox) (num_of_Z 2)) in
  let y_center := num_add (bbox1 bbox) (num_quot (bbox3 bbox) (num_of_Z 2)) in
  let width_ := bbox2 bbox in
  let height_ := bbox3 bbox in
  x_center ← py_div x_center (width img_info);
  y_center ← py_div y_center (height img_info);
  width_ ← py_div width_ (width img_info);
  height_ ← py_div height_ (height img_info);
  Ok {| line_class := category_id;
        line_x_center := x_center;
        line_y_center := y_center;
        line_width := width_;
        line_height := height_ |}.

Fixpoint coco_to_yolo_loop (img_info : image num) (data : coco_data num)
    (anns : list (annotation num)) (label_content : list (yolo_line num))
  : result (list (yolo_line num)) :=
  match anns with
  | [] => Ok label_content
  | ann :: rest =>
      let category_name := category_name_of data (category_id ann) in
      if in_target_classes category_name then
        line ← yolo_line_of img_info ann category_name;
        coco_to_yolo_loop img_info data rest (label_content ++ [line])
      else coco_to_yolo_loop img_info data rest label_content
  end.

Definition coco_to_yolo_format (img_info : image num)
    (anns : list (annotation num)) (data : coco_data num)
  : result (list (yolo_line num)) :=
  coco_to_yolo_loop img_info data anns [].

(** [len(unique_images) >
     num_img_with_target_classes * self.background_percentage];
    the product with [None] is a [TypeError]. *)
Definition over_quota (num_img_with_target_classes : option Z) (len : nat)
  : result bool :=
  match num_img_with_target_classes with
  | Some n =>
      Ok (num_ltb (num_mul (num_of_Z n) (background_percentage self))
                  (num_of_Z (Z.of_nat len)))
  | None => Raise TypeError
  end.

(** The loop of [extract_images_id], lines 194 to 204; returning the set in
    the middle of the list is the [break]. *)
Fixpoint extract_ids_loop (data : coco_data num)
    (extract_target_images : bool) (num_img_with_target_classes : option Z)
    (anns : list (annotation num)) (unique_images : gset Z)
  : result (gset Z) :=
  match anns with
  | [] => Ok unique_images
  | ann :: rest =>
      let category_name := category_name_of data (category_id ann) in
      if Bool.eqb (in_target_classes category_name) extract_target_images then
        let unique_images := {[image_id ann]} ∪ unique_images in
        if negb extract_target_images then
          stop ← over_quota num_img_with_target_classes (size unique_images);
          if (stop : bool) then Ok unique_images
          else extract_ids_loop data extract_target_images
                 num_img_with_target_classes rest unique_images
        else extract_ids_loop data extract_target_images
               num_img_with_target_classes rest unique_images
      else extract_ids_loop data extract_target_images
             num_img_with_target_classes rest unique_images
  end.

Definition extract_images_id (data : coco_data num)
    (extract_target_images : bool) (num_img_with_target_classes : option Z)
    (extract_all : bool) : result (gset Z) :=
  if extract_all then Ok (list_to_set (img_id <$> images data))
  else extract_ids_loop data extract_target_images
         num_img_with_target_classes (annotations data) ∅.

(** [next((img for img in images if img['id'] == image_id), None)] *)
Definition image_by_id (data : coco_data num) (id : Z)
  : option (image num) :=
  find (fun img => bool_decide (img_id img = id)) (images data).

(** The loop of [extract_images_filename], lines 219 to 234. *)
Fixpoint extract_filenames_loop (data : coco_data num)
    (extract_target_images : bool) (num_img_with_target_classes : option Z)
    (anns : list (annotation num)) (unique_images : gset string)
  : io num (gset string) :=
  match anns with
  | [] => io_ret unique_images
  | ann :: rest =>
      let category_name := category_name_of data (category_id ann) in
      if Bool.eqb (in_target_classes category_name) extract_target_images then
        (do unique_images <-
           match image_by_id data (image_id ann) with
           | Some result_dict =>
               io_ret ({[file_name result_dict]} ∪ unique_images)
           | None =>
               run emit (Print (MsgImageInfoNotFound (image_id ann)));
               io_ret unique_images
           end;
         if negb extract_target_images then
           do stop <- lift (over_quota num_img_with_target_classes
                              (size unique_images));
           if (stop : bool) then io_ret unique_images
           else extract_filenames_loop data extract_target_images
                  num_img_with_target_classes rest unique_images
         else extract_filenames_loop data extract_target_images
                num_img_with_target_classes rest unique_images)%io
      else extract_filenames_loop data extract_target_images
             num_img_with_target_classes rest unique_images
  end.

Definition extract_images_filename (data : coco_data num)
    (extract_target_images : bool) (num_img_with_target_classes : option Z)
    (extract_all : bool) : io num (gset string) :=
  if extract_all then io_ret (list_to_set (file_name <$> images data))
  else extract_filenames_loop data extract_target_images
         num_img_with_target_classes (annotations data) ∅.

(** [max(cat['id'] for cat in categories)]: a [ValueError] on no
    category. *)
Definition max_category_id (cats : list category) : result Z :=
  match cats with
  | [] => Raise ValueError
  | c :: rest => Ok (foldl (fun m c' => Z.max m (cat_id c')) (cat_id c) rest)
  end.

(** [create_new_class] changes [coco_data] in place: the result is the
    dictionary after the call. *)
Definition create_new_class (data : coco_data num)
  : result (coco_data num) :=
  match cat_id <$> find (fun cat =>
                           bool_decide (cat_name cat = single_class_name self))
                        (categories data) with
  | Some _ => Ok data
  | None =>
      m ← max_category_id (categories data);
      let new_category_id := m + 1 in
      let new_category := {| cat_id := new_category_id;
                             cat_name := single_class_name self;
                             cat_supercategory := single_class_name self |} in
      Ok {| images := images data;
            categories := categories data ++ [new_category];
            annotations := annotations data |}
  end.

(** The label content of one image, lines 269 to 279. *)
Definition label_payload (data : coco_data num) (img_info : image num)
    (id : Z) (is_background : bool) : result (file_content num) :=
  if is_background then Ok (LabelText [])
  else
    let anns := filter (fun ann => image_id ann = id) (annotations data) in
    if convert_to_yolo self then
      lines ← coco_to_yolo_format img_info anns data;
      Ok (LabelText lines)
    else Ok (LabelJson anns).

(** One iteration of the loop of [convert_annotations], lines 261 to 289.
    [records] is the pair of the lists [images_record] and
    [labels_record], which the method extends in place. *)
Definition convert_image (data : coco_data num)
    (coco_image_dir dataset_type : string) (is_background : bool)
    (records : list string * list string) (id : Z)
  : io num (list string * list string) :=
  match image_by_id data id with
  | None => io_ret records
  | Some img_info =>
      let img_path := path_join coco_image_dir [file_name img_info] in
      (run emit (Copy img_path
                   (path_join (output_dir self) [dataset_type; "images"]));
       let images_record :=
         records.1
         ++ [path_join dataset_type ["images"; file_name img_info]] in
       do label_content <-
         lift (label_payload data img_info id is_background);
       let label_filename :=
         splitext_root (file_name img_info)
         +:+ (if convert_to_yolo self then ".txt" else ".json") in
       let label_filepath :=
         path_join (output_dir self)
           [dataset_type;
            if convert_to_yolo self then "labels" else "annotations";
            label_filename] in
       run emit (WriteFile label_filepath label_content);
       io_ret (images_record, records.2 ++ [label_filepath]))%io
  end.

Variable env : environment num.

Fixpoint io_foldl {A B : Type} (f : A -> B -> io num A) (a : A)
    (l : list B) : io num A :=
  match l with
  | [] => io_ret a
  | b :: rest => (do a' <- f a b; io_foldl f a' rest)%io
  end.

Definition convert_annotations (unique_images : gset Z)
    (data : coco_data num) (coco_image_dir dataset_type : string)
    (records : list string * list string) (is_background : bool)
  : io num (list string * list string) :=
  io_foldl (convert_image data coco_image_dir dataset_type is_background)
           records (iter_ids env unique_images).

(** The branch [dataset_type == 'test'] of [process_dataset], lines 58 to
    89. [test_images_to_extract] is [None] while the local variable is
    unbound. The population of line 70 is the set that line 67 gets from
    [extract_images_filename]; that of line 77 is a listing. *)
Definition process_test (dataset_type coco_annotation_file : string)
  : io num unit :=
  (do test_images_to_extract <-
     (if test_only_target_classes self then
        match read_annotations env coco_annotation_file with
        | Some data =>
            do names <- extract_images_filename data true None false;
            if truthy_int (test_num_images self) then
              do sampled <- lift (random_sample_of_set env names
                                    (default 0 (test_num_images self)));
              io_ret (Some sampled)
            else io_ret (Some (iter_names env names))
        | None =>
            run emit (Print (MsgTestAnnotationNotFound
                               coco_annotation_file));
            io_ret None
        end
      else
        if negb (truthy_int (test_num_images self)) then
          io_ret (Some (listdir env (coco_image_dir_test self)))
        else
          do sampled <- lift (random_sample env
                                (listdir env (coco_image_dir_test self))
                                (default 0 (test_num_images self)));
          io_ret (Some sampled));
   do filenames <- lift (match test_images_to_extract with
                         | Some l => Ok l
                         | None => Raise UnboundLocalError
                         end);
   do images_record <-
     io_foldl (fun images_record filename =>
                 let original_filename :=
                   path_join (coco_image_dir_test self) [filename] in
                 let new_filename :=
                   path_join (output_dir self)
                     ["test"; "images"; filename] in
                 run emit (Copy original_filename new_filename);
                 io_ret (images_record ++ [new_filename]))
              [] filenames;
   let list_path := path_join (output_dir self) [dataset_type +:+ ".txt"] in
   run emit (WriteFile list_path
               (Manifest (String.concat newline images_record)));
   emit (Print (MsgTestStored dataset_type list_path
                  (length images_record))))%io.

(** The two sets of image ids of a split, lines 102 to 115: the images with
    a target class and the background images. *)
Definition select_images (data : coco_data num)
  : result (gset Z * gset Z) :=
  if negb (bool_decide (target_classes self = [])) then
    with_target ← extract_images_id data true None false;
    if num_ltb (num_of_Z 0) (background_percentage self) then
      without_target ← extract_images_id data false
                         (Some (Z.of_nat (size with_target))) false;
      Ok (with_target, without_target)
    else Ok (with_target, ∅)
  else
    all_images ← extract_images_id data true None true;
    Ok (all_images, ∅).

(** The branch of [process_dataset] for an annotation file that exists,
    lines 93 to 147. *)
Definition process_annotated (dataset_type coco_image_dir : string)
    (single_class_name : option string) (data : coco_data num)
  : io num unit :=
  (run emit (Print (MsgNumberOfImages dataset_type (length (images data))));
   do data <- (if truthy_str single_class_name
               then lift (create_new_class data) else io_ret data);
   do selection <- lift (select_images data);
   let unique_images_with_target_classes : gset Z := selection.1 in
   let unique_images_without_target_classes : gset Z := selection.2 in
   run emit (Print (if negb (bool_decide (target_classes self = []))
                    then MsgConvertingTarget dataset_type
                    else MsgConvertingAll dataset_type));
   do records <-
     convert_annotations unique_images_with_target_classes data
       coco_image_dir dataset_type ([], []) false;
   do records <-
     (if negb (bool_decide (unique_images_without_target_classes = ∅)) then
        run emit (Print (MsgConvertingBackground dataset_type
                           (background_percentage self)));
        convert_annotations unique_images_without_target_classes data
          coco_image_dir dataset_type records true
      else io_ret records);
   run emit (Print (MsgConverted dataset_type));
   let list_path := path_join (output_dir self) [dataset_type +:+ ".txt"] in
   run emit (WriteFile list_path (Manifest (String.concat newline records.1)));
   emit (Print (MsgStored dataset_type list_path (length records.1))))%io.

Definition process_dataset (dataset_type coco_annotation_file
    coco_image_dir : string) (single_class_name : option string)
  : io num unit :=
  (run emit (Print (MsgProcessing dataset_type));
   if bool_decide (dataset_type = "test") then
     process_test dataset_type coco_annotation_file
   else
     match read_annotations env coco_annotation_file with
     | Some data =>
         process_annotated dataset_type coco_image_dir single_class_name
           data
     | None => emit (Print (MsgAnnotationFileNotFound coco_annotation_file))
     end)%io.

(** [__init__] after [parse_arguments]: the three splits in order. *)
Definition init : io num unit :=
  let single_class :=
    if create_single_class self then Some (single_class_name self)
    else None in
  (run process_dataset "train" (coco_annotation_train self)
         (coco_image_dir_train self) single_class;
   run process_dataset "valid" (coco_annotation_val self)
         (coco_image_dir_val self) single_class;
   process_dataset "test" (coco_annotation_test self)
     (coco_image_dir_test self) None)%io.

End Methods.

(** ** Vocabulary of the properties *)

(** The annotation resolves to a target class (the test of lines 164 and
    199). *)
Definition matched {num : Type} (self : converter num) (data : coco_data num)
    (ann : annotation num) : bool :=
  in_target_classes self (category_name_of data (category_id ann)).

(** [i] is the position of [name] in [target_classes], as [list.index]
    counts it: the first one. *)
Definition position_in_targets {num : Type} (self : converter num)
    (name : string) (i : nat) : Prop :=
  target_classes self !! i = Some name
  /\ forall j, (j < i)%nat -> target_classes self !! j <> Some name.

(** The class index of a line for an annotation of category [name]. *)
Definition class_index_ok {num : Type} (self : converter num)
    (data : coco_data num) (ann : annotation num) (line : yolo_line num)
  : Prop :=
  exists name,
    category_name_of data (category_id ann) = Some name
    /\ name ∈ target_classes self
    /\ (create_single_class self = true -> line_class line = 0%nat)
    /\ (create_single_class self = false ->
        position_in_targets self name (line_class line)).

(** The four values of a line, as the operations of lines 168 to 177. *)
Definition normalized_values {num : Type} `{!PyNum num} (img_info : image num)
    (ann : annotation num) (line : yolo_line num) : Prop :=
  let b := bbox ann in
  line_x_center line
  = num_quot (num_add (bbox0 b) (num_quot (bbox2 b) (num_of_Z 2)))
             (width img_info)
  /\ line_y_center line
     = num_quot (num_add (bbox1 b) (num_quot (bbox3 b) (num_of_Z 2)))
                (height img_info)
  /\ line_width line = num_quot (bbox2 b) (width img_info)
  /\ line_height line = num_quot (bbox3 b) (height img_info).

(** [name] is the name of the first category of the catalog whose id is
    [cid]: the category that an annotation with this [category_id] refers
    to. *)
Definition resolves_to {num : Type} (data : coco_data num) (cid : Z)
    (name : string) : Prop :=
  exists before cat after,
    categories data = before ++ cat :: after
    /\ Forall (fun c => cat_id c <> cid) before
    /\ cat_id cat = cid
    /\ cat_name cat = name.

(** The category of the annotation has a name, and the name is one of
    [target_classes]. *)
Definition target_annotation {num : Type} (self : converter num)
    (data : coco_data num) (ann : annotation num) : Prop :=
  exists name,
    resolves_to data (category_id ann) name /\ name ∈ target_classes self.

(** [lines] holds one line for each annotation of [anns] whose category
    name is in [target_classes], in the order of the annotations, and
    nothing for the others; [P] relates an annotation, the name of its
    category and its line. *)
Inductive transcribed {num : Type} (self : converter num)
    (data : coco_data num)
    (P : annotation num -> string -> yolo_line num -> Prop)
  : list (annotation num) -> list (yolo_line num) -> Prop :=
| transcribed_nil : transcribed self data P [] []
| transcribed_line ann anns name line lines :
    resolves_to data (category_id ann) name ->
    name ∈ target_classes self ->
    P ann name line ->
    transcribed self data P anns lines ->
    transcribed self data P (ann :: anns) (line :: lines)
| transcribed_skip ann anns lines :
    ~ target_annotation self data ann ->
    transcribed self data P anns lines ->
    transcribed self data P (ann :: anns) lines.

(** The class index of the line of an annotation of category [name]. *)
Definition class_index_of {num : Type} (self : converter num)
    (ann : annotation num) (name : string) (line : yolo_line num) : Prop :=
  (create_single_class self = true -> line_class line = 0%nat)
  /\ (create_single_class self = false ->
      position_in_targets self name (line_class line)).

(** A number that binary64 holds, zero or of a magnitude between 2^-200 and
    2^200: on such boxes and image sizes no operation of the transcoder, and
    no product of a line value by an image size, overflows or underflows. *)
Definition binary64_input (q : Q) : Prop :=
  (round53 q == q
   /\ (q == 0
       \/ (1 # 2 ^ 200 <= Qabs q /\ Qabs q <= inject_Z (2 ^ 200))))%Q.

Definition binary64_box (ann : annotation Q) : Prop :=
  let b := bbox ann in
  binary64_input (bbox0 b) /\ binary64_input (bbox1 b)
  /\ binary64_input (bbox2 b) /\ binary64_input (bbox3 b).

(** 2^-48: 32 times the unit round-off. *)
Definition tolerance : Q := 1 # 281474976710656.

(** The products of the values of a line by the image size, computed in
    binary64, give the box back within [tolerance]: the width and the height
    relative to themselves, the corner (centre minus half the size) relative
    to the magnitude of the corner and the size it is computed from. *)
Definition scales_back (img_info : image Q) (ann : annotation Q)
    (line : yolo_line Q) : Prop :=
  let b := bbox ann in
  let w := num_mul (line_width line) (width img_info) in
  let h := num_mul (line_height line) (height img_info) in
  let x_center := num_mul (line_x_center line) (width img_info) in
  let y_center := num_mul (line_y_center line) (height img_info) in
  (Qabs (w - bbox2 b) <= tolerance * Qabs (bbox2 b)
   /\ Qabs (h - bbox3 b) <= tolerance * Qabs (bbox3 b)
   /\ Qabs (x_center - w / 2 - bbox0 b)
      <= tolerance * (Qabs (bbox0 b) + Qabs (bbox2 b))
   /\ Qabs (y_center - h / 2 - bbox1 b)
      <= tolerance * (Qabs (bbox1 b) + Qabs (bbox3 b)))%Q.

(** The image ids carried by the annotations that resolve to no target class:
    the candidates of the background scan. *)
Definition nontarget_ids {num : Type} (self : converter num)
    (data : coco_data num) (anns : list (annotation num)) : gset Z :=
  list_to_set
    (image_id <$> filter (fun ann => matched self data ann = false) anns).

(** The image ids carried by the annotations that resolve to a target
    class. *)
Definition target_ids {num : Type} (self : converter num)
    (data : coco_data num) (anns : list (annotation num)) : gset Z :=
  list_to_set
    (image_id <$> filter (fun ann => matched self data ann = true) anns).

(** The images of [data] found for the ids [ids], in order, and their paths
    relative to the output directory. *)
Definition materialized {num : Type} (data : coco_data num) (ids : list Z)
  : list (image num) :=
  omap (image_by_id data) ids.

Definition relative_image_paths {num : Type} (dataset_type : string)
    (imgs : list (image num)) : list string :=
  (fun img => path_join dataset_type ["images"; file_name img]) <$> imgs.

(** [coco_data] with another list of annotations. *)
Definition with_annotations {num : Type} (data : coco_data num)
    (anns : list (annotation num)) : coco_data num :=
  {| images := images data;
     categories := categories data;
     annotations := anns |}.

(** [parse_arguments], lines 325 to 338: the attributes of [self] from the
    parsed command line. *)
Definition parse_arguments {num : Type} (dataset_dir output_dir : string)
    (target_classes : list string) (background_percentage : num)
    (test_num_images : option Z)
    (test_only_target_classes create_single_class : bool)
    (single_class_name : string) (convert_to_yolo : bool) : converter num :=
  {| coco_annotation_train :=
       path_join dataset_dir ["annotations"; "instances_train2017.json"];
     coco_image_dir_train := path_join dataset_dir ["images"; "train2017"];
     coco_annotation_val :=
       path_join dataset_dir ["annotations"; "instances_val2017.json"];
     coco_image_dir_val := path_join dataset_dir ["images"; "val2017"];
     coco_annotation_test :=
       path_join dataset_dir ["annotations"; "instances_test2017.json"];
     coco_image_dir_test := path_join dataset_dir ["images"; "test2017"];
     output_dir := output_dir;
     target_classes := target_classes;
     background_percentage := background_percentage;
     test_num_images := test_num_images;
     test_only_target_classes := test_only_target_classes;
     create_single_class := create_single_class;
     single_class_name := single_class_name;
     convert_to_yolo := convert_to_yolo |}.

(** ** Sample inputs *)

Definition cat_and_dog : list category :=
  [ {| cat_id := 1; cat_name := "cat"; cat_supercategory := "animal" |};
    {| cat_id := 2; cat_name := "dog"; cat_supercategory := "animal" |} ].

(** The image [<id>.jpg], 49 pixels wide and high. *)
Definition small_image {num : Type} `{!PyNum num} (id : Z) : image num :=
  {| img_id := id;
     file_name := pretty id +:+ ".jpg";
     width := num_of_Z 49;
     height := num_of_Z 49 |}.

(** A box of one pixel at the origin of image [id]. *)
Definition pixel_box {num : Type} `{!PyNum num} (id cat : Z)
  : annotation num :=
  {| image_id := id;
     category_id := cat;
     bbox := {| bbox0 := num_of_Z 0; bbox1 := num_of_Z 0;
                bbox2 := num_of_Z 1; bbox3 := num_of_Z 1 |} |}.

(** One image that shows a cat and a dog. *)
Definition cat_with_dog {num : Type} `{!PyNum num} : coco_data num :=
  {| images := [small_image 1];
     categories := cat_and_dog;
     annotations := [pixel_box 1 1; pixel_box 1 2] |}.

(** Ten images, a cat on each, and nothing else. *)
Definition ten_cats {num : Type} `{!PyNum num} : coco_data num :=
  {| images := small_image <$> seqZ 1 10;
     categories := cat_and_dog;
     annotations := (fun id => pixel_box id 1) <$> seqZ 1 10 |}.

(** Ten images with a cat, then eight images with a dog. *)
Definition cats_then_dogs {num : Type} `{!PyNum num} : coco_data num :=
  {| images := small_image <$> seqZ 1 18;
     categories := cat_and_dog;
     annotations := ((fun id => pixel_box id 1) <$> seqZ 1 10)
                    ++ ((fun id => pixel_box id 2) <$> seqZ 11 8) |}.

(** A file with an image and no category. *)
Definition no_category {num : Type} `{!PyNum num} : coco_data num :=
  {| images := [small_image 1]; categories := []; annotations := [] |}.

(** [--target_classes cat --background_percentage 0.5] *)
Definition cats_half_background : converter float :=
  parse_arguments "coco" "new_dataset" ["cat"] 0.5%float None false false
    "new_class" true.

(** The same options, with the numbers as rounded rationals. *)
Definition cats_half_background_Q : converter Q :=
  parse_arguments "coco" "new_dataset" ["cat"] (1 # 2)%Q None false false
    "new_class" true.

(** No option but the dataset directory: every default. *)
Definition all_defaults : converter float :=
  parse_arguments "coco" "new_dataset" [] 0%float None false false
    "new_class" true.

(** [--target_classes cat --create_single_class 1] *)
Definition cats_merged : converter float :=
  parse_arguments "coco" "new_dataset" ["cat"] 0%float None false true
    "new_class" true.

(** [--target_classes cat --test_only_target_classes 1] *)
Definition cats_test_filtered : converter float :=
  parse_arguments "coco" "new_dataset" ["cat"] 0%float None true false
    "new_class" true.

(** A dataset directory with the train annotations [data], no other
    annotation file, and one test image. *)
Definition train_only {num : Type} (data : coco_data num)
  : environment num :=
  {| read_annotations := fun path =>
       if bool_decide (path = "coco/annotations/instances_train2017.json")
       then Some data else None;
     listdir := fun _ => ["000000000001.jpg"];
     random_choice := fun population k => take (Z.to_nat k) population;
     sample_accepts_set := false;
     iter_ids := elements;
     iter_names := elements |}.

(** The same directory with another [random.sample]: the last elements
    first. *)
Definition train_only_reversed {num : Type} (data : coco_data num)
  : environment num :=
  {| read_annotations := read_annotations (train_only data);
     listdir := listdir (train_only data);
     random_choice := fun population k =>
                        take (Z.to_nat k) (reverse population);
     sample_accepts_set := sample_accepts_set (train_only data);
     iter_ids := iter_ids (train_only data);
     iter_names := iter_names (train_only data) |}.

(** Other options around the same [target_classes] and
    [background_percentage]. *)
Definition cats_half_background_elsewhere : converter float :=
  parse_arguments "coco2017" "elsewhere" ["cat"] 0.5%float (Some 3) true true
    "pet" false.

(** ** Vocabulary of the further properties *)

(** The messages of line 231, one for each annotation of a target class whose
    image has no record, in the order of the annotations. *)
Definition missing_image_messages {num : Type} (self : converter num)
    (data : coco_data num) (anns : list (annotation num))
  : list (event num) :=
  (fun ann => Print (MsgImageInfoNotFound (image_id ann)))
    <$> filter (fun ann => matched self data ann = true
                           /\ image_by_id data (image_id ann) = None) anns.

(** The file names of the images, when they have a record, of the annotations
    of a target class. *)
Definition target_names {num : Type} (self : converter num)
    (data : coco_data num) (anns : list (annotation num)) : gset string :=
  list_to_set
    (file_name <$> omap (fun ann => image_by_id data (image_id ann))
                     (filter (fun ann => matched self data ann = true) anns)).


(** The path of the label file of an image, lines 282 and 283. *)
Definition label_path {num : Type} (self : converter num)
    (dataset_type : string) (img_info : image num) : string :=
  path_join (output_dir self)
    [dataset_type;
     if convert_to_yolo self then "labels" else "annotations";
     splitext_root (file_name img_info)
     +:+ (if convert_to_yolo self then ".txt" else ".json")].

(** The two effects of [convert_annotations] for an image: its copy and the
    writing of its label file. *)
Definition image_events {num : Type} (self : converter num)
    (coco_image_dir dataset_type : string) (img_info : image num)
    (content : file_content num) : list (event num) :=
  [Copy (path_join coco_image_dir [file_name img_info])
        (path_join (output_dir self) [dataset_type; "images"]);
   WriteFile (label_path self dataset_type img_info) content].

(** An image 0 pixels wide, with a cat on it. *)
Definition cat_on_flat_image : coco_data float :=
  {| images := [ {| img_id := 1; file_name := "1.jpg";
                    width := 0%float; height := 49%float |} ];
     categories := cat_and_dog;
     annotations := [pixel_box 1 1] |}.

(** The copies of the test branch for the files [filenames], lines 79 to 82,
    and the paths it records, line 83. *)
Definition test_copies {num : Type} (self : converter num)
    (filenames : list string) : list (event num) :=
  (fun filename =>
     Copy (path_join (coco_image_dir_test self) [filename])
          (path_join (output_dir self) ["test"; "images"; filename]))
    <$> filenames.

Definition test_paths {num : Type} (self : converter num)
    (filenames : list string) : list string :=
  (fun filename => path_join (output_dir self) ["test"; "images"; filename])
    <$> filenames.

(** The end of the test branch, lines 86 to 89: the manifest and the last
    message. *)
Definition test_manifest_events {num : Type} (self : converter num)
    (dataset_type : string) (filenames : list string) : list (event num) :=
  let list_path := path_join (output_dir self) [dataset_type +:+ ".txt"] in
  [WriteFile list_path
     (Manifest (String.concat newline (test_paths self filenames)));
   Print (MsgTestStored dataset_type list_path
            (length (test_paths self filenames)))].

(** A dataset directory whose only annotation file is that of the test
    split, with the content [data]. *)
Definition test_annotated {num : Type} (data : coco_data num)
  : environment num :=
  {| read_annotations := fun path =>
       if bool_decide (path = "coco/annotations/instances_test2017.json")
       then Some data else None;
     listdir := fun _ => ["1.jpg"; "2.jpg"];
     random_choice := fun population k => take (Z.to_nat k) population;
     sample_accepts_set := false;
     iter_ids := elements;
     iter_names := elements |}.

(** The same directory under an interpreter that iterates a set of strings
    the other way round. *)
Definition test_annotated_reversed {num : Type} (data : coco_data num)
  : environment num :=
  {| read_annotations := read_annotations (test_annotated data);
     listdir := listdir (test_annotated data);
     random_choice := random_choice (test_annotated data);
     sample_accepts_set := sample_accepts_set (test_annotated data);
     iter_ids := iter_ids (test_annotated data);
     iter_names := fun s => reverse (elements s) |}.

(** [--target_classes cat --test_only_target_classes 1 --test_num_images 1] *)
Definition one_filtered_test_image : converter float :=
  parse_arguments "coco" "new_dataset" ["cat"] 0%float (Some 1) true false
    "new_class" true.

(** [--target_classes cat --background_percentage 0.3333333333333333]: the
    binary64 number nearest to the decimal is 6004799503160661 / 2^54. *)
Definition cats_third_background : converter Q :=
  parse_arguments "coco" "new_dataset" ["cat"]
    (6004799503160661 # 18014398509481984)%Q None false false "new_class"
    true.

Definition cats_third_background_float : converter float :=
  parse_arguments "coco" "new_dataset" ["cat"] 0x1.5555555555555p-2%float
    None false false "new_class" true.

(** A file system on which nothing fails, and one on which every copy
    fails (no image file is where its record says). *)
Definition no_failure {num : Type} (e : event num) : option exn := None.

Definition no_image_file {num : Type} (e : event num) : option exn :=
  match e with
  | Copy _ _ => Some OSError
  | _ => None
  end.

(** [--test_num_images 5] *)
Definition five_test_images : converter float :=
  parse_arguments "coco" "new_dataset" [] 0%float (Some 5) false false
    "new_class" true.

(** Neither the width nor the height of the image is zero. *)
Definition has_size {num : Type} `{!PyNum num} (img_info : image num)
  : Prop :=
  num_is_zero (width img_info) = false
  /\ num_is_zero (height img_info) = false.

(** * Properties *)

(** ** Paths *)

Example path_join_ex :
  path_join "train" ["images"; "000000000009.jpg"]
  = "train/images/000000000009.jpg".
Proof. reflexivity. Qed.

Example path_join_abs : path_join "out" ["test"; "/tmp/x.jpg"] = "/tmp/x.jpg".
Proof. reflexivity. Qed.

Example splitext_ex : splitext_root "000000000009.jpg" = "000000000009".
Proof. reflexivity. Qed.

Example splitext_hidden : splitext_root "dir.d/.bashrc" = "dir.d/.bashrc".
Proof. reflexivity. Qed.

(** ** Category lookup and the YOLO transcoder *)

Section Transcoder.
Context {num : Type} `{!PyNum num}.
Variable self : converter num.

Lemma category_name_of_absent (data : coco_data num) (cid : Z) :
  Forall (fun cat => cat_id cat <> cid) (categories data) ->
  category_name_of data cid = None.
Proof.
  unfold category_name_of. generalize (categories data).
  induction 1 as [|cat cats Hne _ IH]; simpl; [done|].
  rewrite bool_decide_eq_false_2 by done. exact IH.
Qed.

Lemma in_target_classes_Some (o : option string) :
  in_target_classes self o = true ->
  exists name, o = Some name /\ name ∈ target_classes self.
Proof.
  destruct o as [name|]; simpl; [|done].
  intros Hin%bool_decide_eq_true. eauto.
Qed.

Lemma output_class_ok (name : string) :
  name ∈ target_classes self ->
  exists i, output_class self (Some name) = Ok i
    /\ (create_single_class self = true -> i = 0%nat)
    /\ (create_single_class self = false ->
        position_in_targets self name i).
Proof.
  intros Hin. unfold output_class.
  destruct (create_single_class self) eqn:Hsingle; simpl.
  - exists 0%nat. repeat split; [done|]. discriminate.
  - destruct (list_find (λ c, c = name) (target_classes self))
      as [[i c]|] eqn:Hfind.
    + apply list_find_Some in Hfind as (Hi & -> & Hmin).
      exists i. repeat split; [discriminate|done|].
      intros j Hj Hlook. by apply (Hmin j name).
    + apply list_find_None in Hfind.
      rewrite Forall_forall in Hfind. by destruct (Hfind name Hin).
Qed.

Lemma coco_to_yolo_loop_acc img data (anns : list (annotation num)) acc :
  coco_to_yolo_loop self img data anns acc
  = (lines ← coco_to_yolo_loop self img data anns []; Ok (acc ++ lines)).
Proof.
  revert acc. induction anns as [|ann rest IH]; intros acc; simpl.
  - by rewrite app_nil_r.
  - destruct (in_target_classes self _); [|apply IH].
    destruct (yolo_line_of self img ann _) as [line|e]; simpl; [|done].
    rewrite (IH (acc ++ [line])), (IH [line]).
    destruct (coco_to_yolo_loop self img data rest []); simpl; [|done].
    by rewrite <- app_assoc.
Qed.

Lemma yolo_line_of_ok img (ann : annotation num) (name : string) :
  num_is_zero (width img) = false ->
  num_is_zero (height img) = false ->
  name ∈ target_classes self ->
  exists line,
    yolo_line_of self img ann (Some name) = Ok line
    /\ (create_single_class self = true -> line_class line = 0%nat)
    /\ (create_single_class self = false ->
        position_in_targets self name (line_class line))
    /\ normalized_values img ann line.
Proof.
  intros Hw Hh Hin.
  destruct (output_class_ok name Hin) as (i & Hi & Hsingle & Hpos).
  unfold yolo_line_of, py_div. rewrite Hi, Hw, Hh. simpl.
  eexists. split; [reflexivity|]. simpl.
  split; [exact Hsingle|]. split; [exact Hpos|].
  unfold normalized_values. simpl. done.
Qed.

(** The transcoder returns one line per matched annotation, in order. *)
Lemma coco_to_yolo_format_lines img anns data :
  num_is_zero (width img) = false ->
  num_is_zero (height img) = false ->
  exists lines,
    coco_to_yolo_format self img anns data = Ok lines
    /\ Forall2 (fun ann line =>
                  class_index_ok self data ann line
                  /\ normalized_values img ann line)
               (List.filter (matched self data) anns) lines.
Proof.
  intros Hw Hh. unfold coco_to_yolo_format.
  induction anns as [|ann rest (lines & Hrest & Hall)]; simpl.
  - exists []. split; [done|constructor].
  - unfold matched at 1.
    destruct (in_target_classes self _) eqn:Hm.
    + destruct (in_target_classes_Some _ Hm) as (name & Hname & Hin).
      destruct (yolo_line_of_ok img ann name Hw Hh Hin)
        as (line & Hline & Hsingle & Hpos & Hvals).
      rewrite Hname, Hline. simpl.
      rewrite coco_to_yolo_loop_acc, Hrest. simpl.
      exists (line :: lines). split; [done|].
      constructor; [|exact Hall].
      split; [|exact Hvals]. exists name. by rewrite <- Hname.
    + exists lines. split; [exact Hrest|exact Hall].
Qed.

Lemma yolo_line_of_inv img (ann : annotation num) (name : string) line :
  name ∈ target_classes self ->
  yolo_line_of self img ann (Some name) = Ok line ->
  (create_single_class self = true -> line_class line = 0%nat)
  /\ (create_single_class self = false ->
      position_in_targets self name (line_class line))
  /\ normalized_values img ann line.
Proof.
  intros Hin.
  destruct (output_class_ok name Hin) as (i & Hi & Hsingle & Hpos).
  unfold yolo_line_of, py_div. rewrite Hi. simpl.
  destruct (num_is_zero (width img)); simpl; [discriminate|].
  destruct (num_is_zero (height img)); simpl; [discriminate|].
  intros [= <-]. simpl.
  split; [exact Hsingle|]. split; [exact Hpos|].
  unfold normalized_values. simpl. done.
Qed.

(** Whenever the transcoder returns, its lines are those of the matched
    annotations, in order. *)
Lemma coco_to_yolo_format_inv img anns data lines :
  coco_to_yolo_format self img anns data = Ok lines ->
  Forall2 (fun ann line =>
             class_index_ok self data ann line
             /\ normalized_values img ann line)
          (List.filter (matched self data) anns) lines.
Proof.
  unfold coco_to_yolo_format. revert lines.
  induction anns as [|ann rest IH]; intros lines; simpl.
  - intros [= <-]. constructor.
  - unfold matched at 1.
    destruct (in_target_classes self _) eqn:Hm; [|apply IH].
    destruct (in_target_classes_Some _ Hm) as (name & Hname & Hin).
    rewrite Hname.
    destruct (yolo_line_of self img ann (Some name)) as [line|e] eqn:Hline;
      simpl; [|discriminate].
    rewrite coco_to_yolo_loop_acc.
    destruct (coco_to_yolo_loop self img data rest []) as [rest_lines|e];
      simpl; [|discriminate].
    intros [= <-].
    destruct (yolo_line_of_inv img ann name line Hin Hline)
      as (Hsingle & Hpos & Hvals).
    constructor; [|by apply IH].
    split; [|exact Hvals]. exists name. by rewrite <- Hname.
Qed.

(** A matched annotation on an image of width zero: the first division
    raises. *)
Lemma coco_to_yolo_format_zero_width img (ann : annotation num) rest data :
  matched self data ann = true ->
  num_is_zero (width img) = true ->
  coco_to_yolo_format self img (ann :: rest) data = Raise ZeroDivisionError.
Proof.
  intros Hm Hzero. unfold coco_to_yolo_format. simpl.
  unfold matched in Hm. rewrite Hm.
  destruct (in_target_classes_Some _ Hm) as (name & Hname & Hin).
  destruct (output_class_ok name Hin) as (i & Hi & _).
  rewrite Hname. unfold yolo_line_of, py_div. by rewrite Hi, Hzero.
Qed.

(** An annotation that does not match leaves every loop as it was. *)
Lemma coco_to_yolo_loop_skip img data (ann : annotation num) pre post acc :
  matched self data ann = false ->
  coco_to_yolo_loop self img data (pre ++ ann :: post) acc
  = coco_to_yolo_loop self img data (pre ++ post) acc.
Proof.
  intros Hskip. revert acc.
  induction pre as [|a pre IH]; intros acc; simpl.
  - unfold matched in Hskip. by rewrite Hskip.
  - destruct (in_target_classes self _); [|apply IH].
    destruct (yolo_line_of self img a _); simpl; [apply IH|done].
Qed.

Lemma extract_ids_loop_skip data (ann : annotation num) n pre post s :
  matched self data ann = false ->
  extract_ids_loop self data true n (pre ++ ann :: post) s
  = extract_ids_loop self data true n (pre ++ post) s.
Proof.
  intros Hskip. revert s.
  induction pre as [|a pre IH]; intros s; simpl.
  - unfold matched in Hskip. by rewrite Hskip.
  - destruct (Bool.eqb _ true); apply IH.
Qed.

Lemma extract_filenames_loop_skip data (ann : annotation num) n pre post s :
  matched self data ann = false ->
  extract_filenames_loop self data true n (pre ++ ann :: post) s
  = extract_filenames_loop self data true n (pre ++ post) s.
Proof.
  intros Hskip. revert s.
  induction pre as [|a pre IH]; intros s; simpl.
  - unfold matched in Hskip. by rewrite Hskip.
  - destruct (Bool.eqb _ true); [|apply IH].
    destruct (image_by_id data (image_id a)); simpl; by rewrite IH.
Qed.

(** The scans read the categories and the images of [coco_data], not its
    annotations, which they get as the list they walk. *)
Lemma extract_ids_loop_with_annotations (data : coco_data num) l flag n
    anns s :
  extract_ids_loop self (with_annotations data l) flag n anns s
  = extract_ids_loop self data flag n anns s.
Proof.
  revert s. induction anns as [|a anns IH]; intros s; simpl; [done|].
  change (category_name_of (with_annotations data l) (category_id a))
    with (category_name_of data (category_id a)).
  destruct (Bool.eqb _ flag); [|apply IH].
  destruct (negb flag); [|apply IH].
  destruct (over_quota self n _) as [[|]|]; simpl; [done|apply IH|done].
Qed.

Lemma extract_filenames_loop_with_annotations (data : coco_data num) l flag
    n anns s :
  extract_filenames_loop self (with_annotations data l) flag n anns s
  = extract_filenames_loop self data flag n anns s.
Proof.
  revert s. induction anns as [|a anns IH]; intros s; simpl; [done|].
  change (category_name_of (with_annotations data l) (category_id a))
    with (category_name_of data (category_id a)).
  change (image_by_id (with_annotations data l) (image_id a))
    with (image_by_id data (image_id a)).
  destruct (Bool.eqb _ flag); [|apply IH].
  destruct (image_by_id data (image_id a)); simpl;
    (destruct (negb flag); [|by rewrite IH]);
    (destruct (over_quota self n _) as [[|]|]; simpl; by rewrite ?IH).
Qed.

End Transcoder.

(** ** Target classes, in the words of the catalog

    [matched] is the test the code runs. What it decides is stated here
    without it: the first category of the catalog with the id of the
    annotation has a name of [target_classes]. *)

Section Targets.
Context {num : Type}.
Variable self : converter num.
Variable data : coco_data num.

Lemma category_name_of_resolves (cid : Z) (name : string) :
  category_name_of data cid = Some name <-> resolves_to data cid name.
Proof.
  unfold category_name_of, resolves_to.
  generalize (categories data) as cats.
  induction cats as [|c cats IH]; simpl.
  - split; [done|]. intros (before & cat & after & Heq & _).
    by destruct before.
  - destruct (bool_decide (cat_id c = cid)) eqn:Hc; simpl.
    + apply bool_decide_eq_true in Hc. split.
      * intros [= <-]. by exists [], c, cats.
      * intros (before & cat & after & Heq & Hbefore & Hid & Hname).
        destruct before as [|b before]; simpl in Heq.
        -- injection Heq as -> _. by rewrite Hname.
        -- injection Heq as -> _.
           apply Forall_cons in Hbefore as [Hne _]. done.
    + apply bool_decide_eq_false in Hc. rewrite IH. split.
      * intros (before & cat & after & -> & Hbefore & Hid & Hname).
        exists (c :: before), cat, after.
        repeat split; [|exact Hid|exact Hname]. by constructor.
      * intros (before & cat & after & Heq & Hbefore & Hid & Hname).
        destruct before as [|b before]; simpl in Heq.
        -- injection Heq as -> _. done.
        -- injection Heq as -> ->.
           apply Forall_cons in Hbefore as [_ Hbefore].
           by exists before, cat, after.
Qed.

Lemma matched_target (ann : annotation num) :
  matched self data ann = true <-> target_annotation self data ann.
Proof.
  unfold matched, target_annotation, in_target_classes.
  destruct (category_name_of data (category_id ann)) as [name|] eqn:Hname.
  - rewrite bool_decide_eq_true. split.
    + intros Hin. exists name. split; [|exact Hin].
      by apply category_name_of_resolves.
    + intros (name' & Hres%category_name_of_resolves & Hin).
      rewrite Hname in Hres. by injection Hres as ->.
  - split; [done|].
    intros (name' & Hres%category_name_of_resolves & _).
    by rewrite Hname in Hres.
Qed.

Lemma matched_other (ann : annotation num) :
  matched self data ann = false <-> ~ target_annotation self data ann.
Proof.
  rewrite <- matched_target. by destruct (matched self data ann).
Qed.

Lemma transcribed_impl
    (P Q : annotation num -> string -> yolo_line num -> Prop) anns lines :
  (forall ann name line, P ann name line -> Q ann name line) ->
  transcribed self data P anns lines ->
  transcribed self data Q anns lines.
Proof.
  intros HPQ. induction 1 as [|ann anns name line lines Hres Hin HP _ IH
                               |ann anns lines Hother _ IH].
  - constructor.
  - eapply transcribed_line; eauto.
  - by apply transcribed_skip.
Qed.

(** The first annotation is of a target class: the first line is its
    line. *)
Lemma transcribed_cons_inv
    (P : annotation num -> string -> yolo_line num -> Prop) ann anns lines :
  target_annotation self data ann ->
  transcribed self data P (ann :: anns) lines ->
  exists name line rest,
    lines = line :: rest
    /\ resolves_to data (category_id ann) name
    /\ name ∈ target_classes self
    /\ P ann name line
    /\ transcribed self data P anns rest.
Proof.
  intros Htarget Htr. inversion Htr; subst; [|contradiction].
  eauto 10.
Qed.

(** From the lines of the annotations that pass the test of the code to the
    lines of the annotations of a target class. *)
Lemma transcribed_of_matched
    (P : annotation num -> string -> yolo_line num -> Prop) anns lines :
  Forall2 (fun ann line =>
             exists name,
               category_name_of data (category_id ann) = Some name
               /\ name ∈ target_classes self
               /\ P ann name line)
          (List.filter (matched self data) anns) lines ->
  transcribed self data P anns lines.
Proof.
  revert lines. induction anns as [|ann anns IH]; intros lines; simpl.
  - intros ->%Forall2_nil_inv_l. constructor.
  - destruct (matched self data ann) eqn:Hm.
    + intros (line & rest & (name & Hname & Hin & HP) & Hrest & ->)
        %Forall2_cons_inv_l.
      apply (transcribed_line _ _ _ _ _ name); [|exact Hin|exact HP|by apply IH].
      by apply category_name_of_resolves.
    + intros Hrest. apply transcribed_skip; [|by apply IH].
      by apply matched_other.
Qed.

End Targets.

(** Whenever the transcoder returns, it has written one line for each
    annotation of a target class, in order, and none for the others. *)
Lemma coco_to_yolo_format_transcribed {num : Type} `{!PyNum num}
    (self : converter num) img anns data lines :
  coco_to_yolo_format self img anns data = Ok lines ->
  transcribed self data
    (fun ann name line =>
       class_index_of self ann name line /\ normalized_values img ann line)
    anns lines.
Proof.
  intros Hlines%coco_to_yolo_format_inv.
  apply transcribed_of_matched.
  eapply Forall2_impl; [exact Hlines|].
  intros ann line [(name & Hname & Hin & Hsingle & Hpos) Hvals].
  exists name. split; [exact Hname|]. split; [exact Hin|].
  split; [by split|exact Hvals].
Qed.

(** C3: in YOLO mode the label lines of an image are, in the order of the
    annotations, one line for each annotation whose category (the first of
    the catalog with the [category_id] of the annotation) has a name in
    [target_classes], and no line for any other annotation; the class index
    of a line is 0 when [create_single_class] is set, and otherwise the
    position, as [list.index] counts it, of the category name in
    [target_classes]. The transcoder returns for every image of non-zero
    width and height. *)
Theorem yolo_class_index {num : Type} `{!PyNum num} (self : converter num)
    (img : image num) (anns : list (annotation num)) (data : coco_data num) :
  (forall lines,
      coco_to_yolo_format self img anns data = Ok lines ->
      transcribed self data (class_index_of self) anns lines)
  /\ (num_is_zero (width img) = false ->
      num_is_zero (height img) = false ->
      exists lines, coco_to_yolo_format self img anns data = Ok lines).
Proof.
  split.
  - intros lines Hlines%coco_to_yolo_format_transcribed.
    eapply transcribed_impl; [|exact Hlines].
    by intros ann name line [Hclass _].
  - intros Hw Hh.
    destruct (coco_to_yolo_format_lines self img anns data Hw Hh)
      as (lines & Hlines & _).
    by exists lines.
Qed.

(** ** Rounding

    [round53] is within one unit round-off, relatively, of its operand; it
    leaves the integers below 2^53 as they are. *)

Lemma round_half_even_near (N D : Z) :
  0 < D -> - D <= 2 * (round_half_even N D * D - N) <= D.
Proof.
  intros HD. unfold round_half_even.
  pose proof (Z.div_mod N D ltac:(lia)) as Hdm.
  pose proof (Z.mod_pos_bound N D HD) as Hr.
  destruct (2 * (N mod D) <? D) eqn:H1; [apply Z.ltb_lt in H1; nia|].
  apply Z.ltb_ge in H1.
  destruct (D <? 2 * (N mod D)) eqn:H2; [apply Z.ltb_lt in H2; nia|].
  apply Z.ltb_ge in H2.
  destruct (Z.even (N / D)); nia.
Qed.

Lemma round_half_even_exact (k D : Z) : 0 < D -> round_half_even (k * D) D = k.
Proof.
  intros HD. unfold round_half_even.
  rewrite Z.div_mul, Z.mod_mul by lia.
  destruct (2 * 0 <? D) eqn:H; [reflexivity|]. apply Z.ltb_ge in H. lia.
Qed.

Lemma round53_error (q : Q) :
  (Qabs (round53 q - q) <= unit_roundoff * Qabs q)%Q.
Proof.
  destruct q as [qn qd]. unfold round53. cbn [Qnum Qden].
  destruct (Z.abs qn =? 0) eqn:Hz.
  - apply Z.eqb_eq in Hz. assert (qn = 0) as -> by lia.
    unfold Qle, Qabs, Qminus, Qplus, Qopp, Qmult, unit_roundoff. simpl. lia.
  - apply Z.eqb_neq in Hz. rewrite Qred_correct.
    set (n := Z.abs qn) in *. set (d := Z.pos qd).
    set (K := 2 ^ (Z.log2 d + 53)). set (P0 := 2 ^ Z.log2 n).
    set (P := if 2 ^ 53 * (d * P0) <=? n * K then 2 * P0 else P0).
    assert (0 < n) as Hn by lia. assert (0 < d) as Hd by lia.
    pose proof (Z.log2_nonneg d) as Hb. pose proof (Z.log2_nonneg n) as Ha.
    destruct (Z.log2_spec n Hn) as [Hn1 Hn2].
    destruct (Z.log2_spec d Hd) as [Hd1 Hd2].
    fold P0 in Hn1.
    assert (K = 2 ^ 52 * 2 ^ (Z.succ (Z.log2 d))) as HK.
    { unfold K. rewrite <- Z.pow_add_r by lia. f_equal. lia. }
    assert (0 < P0) as HP0 by (apply Z.pow_pos_nonneg; lia).
    assert (0 < K) as HKpos by (apply Z.pow_pos_nonneg; lia).
    assert (0 < P /\ 2 ^ 52 * (d * P) <= n * K) as [HP Hlow].
    { unfold P. destruct (2 ^ 53 * (d * P0) <=? n * K) eqn:Ht.
      - apply Z.leb_le in Ht. split; [lia|].
        change (2 ^ 53) with (2 ^ 52 * 2) in Ht. lia.
      - split; [lia|]. rewrite HK.
        set (B := 2 ^ Z.succ (Z.log2 d)) in *.
        assert (d * P0 <= n * B) by nia.
        set (X := 2 ^ 52). assert (0 < X) by (unfold X; lia). nia. }
    pose proof (round_half_even_near (n * K) (d * P) ltac:(nia)) as Hnear.
    set (m := round_half_even (n * K) (d * P)) in *.
    apply Qabs_Qle_condition.
    assert (Qabs (qn # qd) == n # qd)%Q as Habs by (unfold Qabs; reflexivity).
    rewrite Habs.
    unfold Qle, Qminus, Qplus, Qopp, Qmult, unit_roundoff. cbn [Qnum Qden].
    rewrite !Pos2Z.inj_mul, !Z2Pos.id by lia. fold d.
    change (Z.pos 9007199254740992) with (2 * 2 ^ 52).
    set (X := 2 ^ 52) in *. assert (0 < X) as HX by (unfold X; lia).
    assert (Z.sgn qn * n = qn) as Hs by (unfold n; lia).
    assert (Z.sgn qn = 1 \/ Z.sgn qn = -1) as Hsg by lia.
    set (s := Z.sgn qn) in *.
    assert (- (n * K) <= 2 * X * (m * P * d - n * K) <= n * K) as Hcore by nia.
    clearbody m P K X n s. clear Hnear Hlow Habs. subst qn.
    destruct Hsg as [-> | ->]; nia.
Qed.

(** Integers below 2^53 are binary64 numbers. *)
Lemma round53_small_int (z : Z) :
  Z.abs z < 2 ^ 53 -> (round53 (inject_Z z) == inject_Z z)%Q.
Proof.
  intros Hz. unfold round53, inject_Z. cbn [Qnum Qden].
  destruct (Z.abs z =? 0) eqn:Hzero.
  - apply Z.eqb_eq in Hzero. assert (z = 0) as -> by lia. reflexivity.
  - apply Z.eqb_neq in Hzero. rewrite Qred_correct.
    set (n := Z.abs z) in *. assert (0 < n) as Hn by lia.
    change (Z.log2 1) with 0. change (2 ^ (0 + 53)) with (2 ^ 53).
    destruct (Z.log2_spec n Hn) as [Hn1 Hn2].
    pose proof (Z.log2_nonneg n) as Ha.
    set (a := Z.log2 n) in *.
    assert (a < 53) as Ha53.
    { apply (Z.pow_lt_mono_r_iff 2); lia. }
    assert (0 < 2 ^ a) as HP0 by (apply Z.pow_pos_nonneg; lia).
    replace (2 ^ 53 * (1 * 2 ^ a) <=? n * 2 ^ 53) with true
      by (symmetry; apply Z.leb_le; nia).
    assert (2 ^ 53 = 2 ^ (52 - a) * (2 * 2 ^ a)) as Hsplit.
    { rewrite <- Z.pow_succ_r, <- Z.pow_add_r by lia. f_equal. lia. }
    replace (n * 2 ^ 53) with (n * 2 ^ (52 - a) * (1 * (2 * 2 ^ a)))
      by (rewrite Hsplit; ring).
    rewrite round_half_even_exact by lia.
    unfold Qeq. cbn [Qnum Qden]. rewrite Z2Pos.id by lia.
    assert (Z.sgn z * n = z) as Hs by (unfold n; lia).
    rewrite Hsplit. set (E := 2 ^ (52 - a)). set (F := 2 ^ a).
    set (s := Z.sgn z) in *. clearbody E F s n. subst z. ring.
Qed.

Lemma unit_roundoff_small : (0 <= unit_roundoff <= 1)%Q.
Proof. split; unfold unit_roundoff, Qle; simpl; lia. Qed.

Lemma Qabs_bounds (x : Q) : (x <= Qabs x /\ - x <= Qabs x /\ 0 <= Qabs x)%Q.
Proof.
  split; [apply Qle_Qabs|]. split; [|apply Qabs_nonneg].
  rewrite <- (Qabs_opp x). apply Qle_Qabs.
Qed.

(** The error of a rounding, for an operand of magnitude at most [m]. *)
Lemma round53_within (x m : Q) :
  (Qabs x <= m ->
   - (unit_roundoff * m) <= round53 x - x <= unit_roundoff * m)%Q.
Proof.
  intros Hm. apply Qabs_Qle_condition.
  eapply Qle_trans; [apply round53_error|].
  apply Qmult_le_l_weak || (unfold unit_roundoff; lra).
Qed.

(** Dividing by [W], rounding and multiplying by [W]. *)
Lemma quotient_scaled_back (s W m : Q) :
  (~ W == 0 -> Qabs s <= m ->
   - (unit_roundoff * m) <= round53 (s / W) * W - s <= unit_roundoff * m)%Q.
Proof.
  intros HW Hm. apply Qabs_Qle_condition.
  setoid_replace (round53 (s / W) * W - s)%Q
    with ((round53 (s / W) - s / W) * W)%Q using relation Qeq
    by (field; exact HW).
  rewrite Qabs_Qmult.
  eapply Qle_trans.
  - apply Qmult_le_compat_r; [apply round53_error|apply Qabs_nonneg].
  - rewrite <- Qmult_assoc, <- Qabs_Qmult.
    setoid_replace (s / W * W)%Q with s using relation Qeq
      by (field; exact HW).
    unfold unit_roundoff in *. 
    assert (0 <= Qabs s)%Q by apply Qabs_nonneg. lra.
Qed.

Lemma size_round_trip (w W : Q) :
  (~ W == 0 ->
   Qabs (round53 (round53 (w / W) * W) - w) <= tolerance * Qabs w)%Q.
Proof.
  intros HW.
  destruct (Qabs_bounds w) as (Hw1 & Hw2 & Hw3).
  pose proof (quotient_scaled_back w W (Qabs w) HW (Qle_refl _)) as Hq.
  set (q := (round53 (w / W) * W)%Q) in *.
  assert (Qabs q <= 2 * Qabs w)%Q as Hqm
    by (apply Qabs_Qle_condition; unfold unit_roundoff in *; lra).
  pose proof (round53_within q _ Hqm) as Hr.
  apply Qabs_Qle_condition. unfold tolerance, unit_roundoff in *. lra.
Qed.

Lemma corner_round_trip (x w W : Q) :
  (~ W == 0 ->
   Qabs (round53 (round53 (round53 (x + round53 (w / 2)) / W) * W)
         - round53 (round53 (w / W) * W) / 2 - x)
   <= tolerance * (Qabs x + Qabs w))%Q.
Proof.
  intros HW.
  destruct (Qabs_bounds w) as (Hw1 & Hw2 & Hw3).
  destruct (Qabs_bounds x) as (Hx1 & Hx2 & Hx3).
  (* the size *)
  pose proof (quotient_scaled_back w W (Qabs w) HW (Qle_refl _)) as Hq.
  set (q := (round53 (w / W) * W)%Q) in *.
  assert (Qabs q <= 2 * Qabs w)%Q as Hqm
    by (apply Qabs_Qle_condition; unfold unit_roundoff in *; lra).
  pose proof (round53_within q _ Hqm) as Hw'.
  set (w' := round53 q) in *.
  (* the centre *)
  assert (w / 2 == w * (1 # 2))%Q as Hdiv by (field; discriminate).
  assert (Qabs (w / 2) <= Qabs w)%Q as Hhalf
    by (rewrite Hdiv; apply Qabs_Qle_condition; lra).
  pose proof (round53_within (w / 2) _ Hhalf) as Ha.
  set (a := round53 (w / 2)) in *. rewrite Hdiv in Ha.
  assert (Qabs (x + a) <= 2 * (Qabs x + Qabs w))%Q as Hsum
    by (apply Qabs_Qle_condition; unfold unit_roundoff in *; lra).
  pose proof (round53_within (x + a) _ Hsum) as Hs.
  set (s := round53 (x + a)) in *.
  assert (Qabs s <= 4 * (Qabs x + Qabs w))%Q as Hsm
    by (apply Qabs_Qle_condition; unfold unit_roundoff in *; lra).
  pose proof (quotient_scaled_back s W _ HW Hsm) as Hp.
  apply Qabs_Qle_condition in Hsm.
  set (p := (round53 (s / W) * W)%Q) in *.
  assert (Qabs p <= 8 * (Qabs x + Qabs w))%Q as Hpm
    by (apply Qabs_Qle_condition; unfold unit_roundoff in *; lra).
  pose proof (round53_within p _ Hpm) as Hc.
  set (c := round53 p) in *.
  assert (w' / 2 == w' * (1 # 2))%Q as -> by (field; discriminate).
  apply Qabs_Qle_condition. unfold tolerance, unit_roundoff in *. lra.
Qed.

Lemma two_exact : round53 (inject_Z 2) = 2%Q.
Proof. vm_compute. reflexivity. Qed.

(** On a sample of operations the rounded rationals and the primitive
    floats hold the same numbers. *)
Example rounded_as_floats :
  Q_of_float (1 / 49)%float = Some (round53 (1 / 49))
  /\ Q_of_float (1 / 49 * 49)%float = Some (round53 (round53 (1 / 49) * 49))
  /\ Q_of_float (0.5 + 0.25 / 2)%float
     = Some (round53 ((1 # 2) + round53 ((1 # 4) / 2)))
  /\ Q_of_float (float_of_Z 3 / float_of_Z 7)%float
     = Some (num_quot (num_of_Z 3) (num_of_Z 7))
  /\ Q_of_float (float_of_Z 9007199254740993)
     = Some (num_of_Z 9007199254740993)
  /\ Q_of_float (float_of_Z (-37) / float_of_Z 640 * float_of_Z 640)%float
     = Some (num_mul (num_quot (num_of_Z (-37)) (num_of_Z 640))
                     (num_of_Z 640)).
Proof. repeat split; vm_compute; reflexivity. Qed.

(** For every box width and image width from 1 to 40 pixels, the written
    width and its product by the image width are the same numbers in both
    arithmetics. *)
Example rounded_as_floats_on_pixels :
  forallb (fun w =>
    forallb (fun W =>
      same_number (float_of_Z w / float_of_Z W)%float
                  (num_quot (num_of_Z w) (num_of_Z W))
      && same_number (float_of_Z w / float_of_Z W * float_of_Z W)%float
                     (num_mul (num_quot (num_of_Z w) (num_of_Z W))
                              (num_of_Z W)))
      (seqZ 1 40)) (seqZ 1 40)
  = true.
Proof. vm_compute. reflexivity. Qed.

(** In binary64, a line gives the box back within [tolerance]. *)
Lemma rounded_scales_back (img : image Q) (ann : annotation Q)
    (line : yolo_line Q) :
  ~ (width img == 0)%Q ->
  ~ (height img == 0)%Q ->
  normalized_values img ann line ->
  scales_back img ann line.
Proof.
  intros Hw Hh (Hx & Hy & Hwd & Hht). unfold scales_back.
  rewrite Hx, Hy, Hwd, Hht.
  cbn [num_mul num_quot num_add num_of_Z rounded_PyNum].
  rewrite two_exact.
  repeat split;
    [by apply size_round_trip|by apply size_round_trip
     |by apply corner_round_trip|by apply corner_round_trip].
Qed.

(** C1: for an image of non-zero width and height, each annotation whose
    category name is in [target_classes] gets a line (and no other
    annotation does) with
    x_center = (bbox[0] + bbox[2]/2) / width,
    y_center = (bbox[1] + bbox[3]/2) / height, width = bbox[2] / width and
    height = bbox[3] / height, in whatever arithmetic the numbers live in.
    In binary64, for boxes and image sizes that neither overflow nor
    underflow, the products of these values by the image size give the box
    back within floating-point tolerance: the width and the height within
    2^-48 of themselves, the corner within 2^-48 of the magnitude of the box
    along its axis. *)
Theorem yolo_normalization :
  (forall (num : Type) (arith : PyNum num) (self : converter num)
          (img : image num) (anns : list (annotation num))
          (data : coco_data num),
      num_is_zero (width img) = false ->
      num_is_zero (height img) = false ->
      exists lines,
        coco_to_yolo_format self img anns data = Ok lines
        /\ transcribed self data
             (fun ann _ line => normalized_values img ann line) anns lines)
  /\ (forall (self : converter Q) (img : image Q) (anns : list (annotation Q))
             (data : coco_data Q),
         binary64_input (width img) ->
         binary64_input (height img) ->
         ~ (width img == 0)%Q ->
         ~ (height img == 0)%Q ->
         Forall binary64_box anns ->
         exists lines,
           coco_to_yolo_format self img anns data = Ok lines
           /\ transcribed self data
                (fun ann _ line =>
                   normalized_values img ann line
                   /\ scales_back img ann line) anns lines).
Proof.
  split.
  - intros num arith self img anns data Hw Hh.
    destruct (coco_to_yolo_format_lines self img anns data Hw Hh)
      as (lines & Hlines & _).
    exists lines. split; [exact Hlines|].
    apply coco_to_yolo_format_transcribed in Hlines.
    eapply transcribed_impl; [|exact Hlines].
    by intros ann name line [_ Hvals].
  - intros self img anns data _ _ Hw Hh _.
    destruct (coco_to_yolo_format_lines self img anns data)
      as (lines & Hlines & _).
    + simpl. by apply not_true_is_false; intros ?%Qeq_bool_iff.
    + simpl. by apply not_true_is_false; intros ?%Qeq_bool_iff.
    + exists lines. split; [exact Hlines|].
      apply coco_to_yolo_format_transcribed in Hlines.
      eapply transcribed_impl; [|exact Hlines].
      intros ann name line [_ Hvals].
      split; [exact Hvals|by apply rounded_scales_back].
Qed.

(** C9: an annotation whose [category_id] is the id of no category resolves
    to no name (the lookup returns [None], it cannot raise), does not match
    a target class, and is ignored by the YOLO transcoder and by the scans
    that build the target set. *)
Theorem unknown_category_never_matches {num : Type} `{!PyNum num}
    (self : converter num) (data : coco_data num) (ann : annotation num) :
  Forall (fun cat => cat_id cat <> category_id ann) (categories data) ->
  category_name_of data (category_id ann) = None
  /\ matched self data ann = false
  /\ (forall img pre post,
         coco_to_yolo_format self img (pre ++ ann :: post) data
         = coco_to_yolo_format self img (pre ++ post) data)
  /\ (forall n pre post,
         extract_images_id self (with_annotations data (pre ++ ann :: post))
           true n false
         = extract_images_id self (with_annotations data (pre ++ post))
             true n false)
  /\ (forall n pre post,
         extract_images_filename self
           (with_annotations data (pre ++ ann :: post)) true n false
         = extract_images_filename self
             (with_annotations data (pre ++ post)) true n false).
Proof.
  intros Habsent.
  pose proof (category_name_of_absent data _ Habsent) as Hnone.
  assert (Hskip : matched self data ann = false)
    by (unfold matched; by rewrite Hnone).
  split; [exact Hnone|]. split; [exact Hskip|].
  split; [|split].
  - intros img pre post. by apply coco_to_yolo_loop_skip.
  - intros n pre post. unfold extract_images_id. simpl.
    rewrite !extract_ids_loop_with_annotations.
    by apply extract_ids_loop_skip.
  - intros n pre post. unfold extract_images_filename. simpl.
    rewrite !extract_filenames_loop_with_annotations.
    by apply extract_filenames_loop_skip.
Qed.

(** ** Concrete runs of the transcoder *)

(** In the sample catalog, category 1 is the cat. *)
Lemma cat_resolves {num : Type} `{!PyNum num} :
  resolves_to (cat_with_dog (num := num)) 1 "cat".
Proof.
  exists [], {| cat_id := 1; cat_name := "cat";
               cat_supercategory := "animal" |},
         [ {| cat_id := 2; cat_name := "dog";
              cat_supercategory := "animal" |} ].
  repeat split. constructor.
Qed.

Lemma pixel_box_binary64 (id cat : Z) : binary64_box (pixel_box id cat).
Proof.
  assert (binary64_input (num_of_Z 0)) as H0
    by (split; [vm_compute; reflexivity|left; vm_compute; reflexivity]).
  assert (binary64_input (num_of_Z 1)) as H1
    by (split; [vm_compute; reflexivity
               |right; split; vm_compute; discriminate]).
  unfold binary64_box. simpl. auto.
Qed.

Lemma yolo_normalization_witness :
  (exists line,
      coco_to_yolo_format cats_half_background (small_image 1)
        (annotations cat_with_dog) cat_with_dog = Ok [line]
      /\ line_width line = (1 / 49)%float
      /\ normalized_values (small_image 1) (pixel_box 1 1) line)
  /\ (exists line,
         coco_to_yolo_format cats_half_background_Q (small_image 1)
           (annotations cat_with_dog) cat_with_dog = Ok [line]
         /\ line_width line = round53 (1 # 49)
         /\ scales_back (small_image 1) (pixel_box 1 1) line).
Proof.
  split.
  - destruct (proj1 yolo_normalization float _ cats_half_background
                (small_image 1) (annotations cat_with_dog) cat_with_dog)
      as (lines & Hlines & Htr); [vm_compute; reflexivity..|].
    apply transcribed_cons_inv in Htr
        as (name & line & rest & -> & _ & _ & Hvals & _);
      [|exists "cat"; split; [apply cat_resolves|set_solver]].
    vm_compute in Hlines. injection Hlines as <- <-.
    eexists. split; [vm_compute; reflexivity|].
    split; [vm_compute; reflexivity|exact Hvals].
  - destruct (proj2 yolo_normalization cats_half_background_Q
                (small_image 1) (annotations cat_with_dog) cat_with_dog)
      as (lines & Hlines & Htr).
    + split; [vm_compute; reflexivity|].
      right. split; vm_compute; discriminate.
    + split; [vm_compute; reflexivity|].
      right. split; vm_compute; discriminate.
    + vm_compute. discriminate.
    + vm_compute. discriminate.
    + constructor; [apply pixel_box_binary64|].
      constructor; [apply pixel_box_binary64|constructor].
    + apply transcribed_cons_inv in Htr
          as (name & line & rest & -> & _ & _ & [_ Hback] & _);
        [|exists "cat"; split; [apply cat_resolves|set_solver]].
      vm_compute in Hlines. injection Hlines as <- <-.
      eexists. split; [vm_compute; reflexivity|].
      split; [vm_compute; reflexivity|exact Hback].
Defined.

Lemma yolo_class_index_witness :
  exists line,
    coco_to_yolo_format cats_half_background (small_image 1)
      (annotations cat_with_dog) cat_with_dog = Ok [line]
    /\ line_class line = 0%nat
    /\ transcribed cats_half_background cat_with_dog
         (class_index_of cats_half_background)
         (annotations cat_with_dog) [line].
Proof.
  destruct (yolo_class_index cats_half_background (small_image 1)
              (annotations cat_with_dog) cat_with_dog) as [Hlines Hreturns].
  destruct Hreturns as [lines Hok]; [vm_compute; reflexivity..|].
  pose proof (Hlines lines Hok) as Htr.
  vm_compute in Hok. injection Hok as <-.
  eexists. split; [vm_compute; reflexivity|].
  split; [reflexivity|exact Htr].
Defined.

Lemma unknown_category_never_matches_witness :
  category_name_of (cat_with_dog (num := float))
    (category_id (pixel_box (num := float) 1 7)) = None
  /\ matched cats_half_background cat_with_dog (pixel_box 1 7) = false.
Proof.
  destruct (unknown_category_never_matches cats_half_background cat_with_dog
              (pixel_box 1 7)) as (Hnone & Hskip & _).
  - repeat constructor; discriminate.
  - split; [exact Hnone|exact Hskip].
Defined.

(** ** The scans of [extract_images_id] *)

Section Scans.
Context {num : Type} `{!PyNum num}.
Variable self : converter num.
Variable data : coco_data num.

Lemma nontarget_ids_cons_matched (ann : annotation num) anns :
  matched self data ann = true ->
  nontarget_ids self data (ann :: anns) = nontarget_ids self data anns.
Proof.
  intros Hm. unfold nontarget_ids.
  rewrite filter_cons_False; [done|]. by rewrite Hm.
Qed.

Lemma nontarget_ids_cons_other (ann : annotation num) anns :
  matched self data ann = false ->
  nontarget_ids self data (ann :: anns)
  = {[image_id ann]} ∪ nontarget_ids self data anns.
Proof.
  intros Hm. unfold nontarget_ids. by rewrite filter_cons_True.
Qed.

Lemma target_ids_cons_matched (ann : annotation num) anns :
  matched self data ann = true ->
  target_ids self data (ann :: anns)
  = {[image_id ann]} ∪ target_ids self data anns.
Proof.
  intros Hm. unfold target_ids. by rewrite filter_cons_True.
Qed.

Lemma target_ids_cons_other (ann : annotation num) anns :
  matched self data ann = false ->
  target_ids self data (ann :: anns) = target_ids self data anns.
Proof.
  intros Hm. unfold target_ids.
  rewrite filter_cons_False; [done|]. by rewrite Hm.
Qed.

(** The first scan never stops early: it returns every image id of an
    annotation that resolves to a target class. *)
Lemma target_scan n anns (s : gset Z) :
  extract_ids_loop self data true n anns s
  = Ok (s ∪ target_ids self data anns).
Proof.
  revert s. induction anns as [|ann anns IH]; intros s; simpl.
  - f_equal. unfold target_ids. simpl. set_solver.
  - fold (matched self data ann).
    destruct (matched self data ann) eqn:Hm; simpl; rewrite IH; f_equal.
    + rewrite target_ids_cons_matched by done. set_solver.
    + by rewrite target_ids_cons_other.
Qed.

Lemma size_add_le (x : Z) (s : gset Z) :
  (size ({[x]} ∪ s) <= S (size s))%nat.
Proof.
  rewrite size_union_alt, size_singleton.
  assert (size (s ∖ {[x]}) <= size s)%nat
    by (apply subseteq_size; set_solver).
  lia.
Qed.

(** The second scan, for a quota test that fires exactly above [c]
    elements: it returns the first candidates, [c + 1] of them when there
    are that many, and all of them otherwise. *)
Lemma background_scan (n : Z) (c : nat) :
  (forall k, (k <= S c)%nat ->
     over_quota self (Some n) k = Ok (bool_decide (c < k)%nat)) ->
  forall anns (s : gset Z),
    (size s <= c)%nat ->
    exists r,
      extract_ids_loop self data false (Some n) anns s = Ok r
      /\ s ⊆ r
      /\ r ⊆ s ∪ nontarget_ids self data anns
      /\ size r
         = Nat.min (S c) (size (s ∪ nontarget_ids self data anns)).
Proof.
  intros Hquota.
  induction anns as [|ann anns IH]; intros s Hs; cbn [extract_ids_loop].
  - exists s. unfold nontarget_ids.
    rewrite filter_nil, fmap_nil, list_to_set_nil, (right_id_L ∅ (∪)).
    split; [done|]. split; [done|]. split; [done|lia].
  - fold (matched self data ann).
    destruct (matched self data ann) eqn:Hm; cbn [Bool.eqb negb].
    + rewrite nontarget_ids_cons_matched by done. by apply IH.
    + rewrite nontarget_ids_cons_other by done.
      pose proof (size_add_le (image_id ann) s) as Hadd.
      rewrite Hquota by lia. cbn [mbind result_bind].
      rewrite (assoc_L (∪) s), (comm_L (∪) s {[image_id ann]}).
      case_bool_decide as Hstop.
      * exists ({[image_id ann]} ∪ s).
        split; [done|]. split; [set_solver|]. split; [set_solver|].
        assert (size ({[image_id ann]} ∪ s)
                <= size ({[image_id ann]} ∪ s
                         ∪ nontarget_ids self data anns))%nat
          by (apply subseteq_size; set_solver).
        lia.
      * destruct (IH ({[image_id ann]} ∪ s)) as (r & Hr & Hsub & Hsup & Hsz);
          [lia|].
        exists r. split; [done|]. split; [set_solver|]. by split.
Qed.

Lemma nontarget_ids_pos anns :
  (0 < size (nontarget_ids self data anns))%nat
  <-> exists ann, ann ∈ anns /\ matched self data ann = false.
Proof.
  split.
  - intros Hpos. destruct (size_pos_elem_of (nontarget_ids self data anns))
      as [id Hid]; [done|].
    unfold nontarget_ids in Hid.
    apply elem_of_list_to_set, list_elem_of_fmap in Hid
      as (ann & _ & Hann).
    apply list_elem_of_filter in Hann as [Hm Hin]. eauto.
  - intros (ann & Hin & Hm).
    assert (image_id ann ∈ nontarget_ids self data anns) as Hid.
    { unfold nontarget_ids.
      apply elem_of_list_to_set, list_elem_of_fmap.
      exists ann. split; [done|]. by apply list_elem_of_filter. }
    destruct (decide (size (nontarget_ids self data anns) = 0%nat))
      as [Hz|Hnz]; [|lia].
    apply size_empty_inv in Hz. set_solver.
Qed.

End Scans.

(** With [background_percentage = 0.5] and ten images in the target set, the
    test of line 203 fires from six elements on. *)
Lemma half_of_ten_quota (self : converter float) :
  background_percentage self = 0.5%float ->
  forall k, (k <= 6)%nat ->
    over_quota self (Some 10) k = Ok (bool_decide (5 < k)%nat).
Proof.
  intros Hbp k Hk. unfold over_quota. rewrite Hbp.
  do 7 (destruct k as [|k]; [vm_compute; reflexivity|]). lia.
Qed.

(** C4 (amended): with one target class, [background_percentage = 0.5] and a
    target set of ten images, the background scan returns a set of
    min(6, number of distinct image ids among the annotations that resolve to
    no target class) elements: at most 6, the scan stopping as soon as it
    holds more than 5; and not empty exactly when some annotation resolves to
    no target class. *)
Theorem background_of_ten_targets (self : converter float)
    (data : coco_data float) (c : string) (targets : gset Z) :
  target_classes self = [c] ->
  background_percentage self = 0.5%float ->
  extract_images_id self data true None false = Ok targets ->
  size targets = 10%nat ->
  exists background,
    extract_images_id self data false (Some (Z.of_nat (size targets))) false
    = Ok background
    /\ size background
       = Nat.min 6 (size (nontarget_ids self data (annotations data)))
    /\ (size background <= 6)%nat
    /\ ((0 < size background)%nat
        <-> exists ann,
              ann ∈ annotations data /\ matched self data ann = false).
Proof.
  intros _ Hbp _ ->. unfold extract_images_id.
  destruct (background_scan self data 10 5 (half_of_ten_quota self Hbp)
              (annotations data) ∅) as (bg & Hbg & _ & _ & Hsize).
  { rewrite size_empty. lia. }
  rewrite (left_id_L ∅ (∪)) in Hsize.
  exists bg. split; [exact Hbg|]. split; [exact Hsize|]. split; [lia|].
  rewrite <- nontarget_ids_pos. lia.
Qed.

Lemma background_of_ten_targets_witness :
  exists background,
    extract_images_id cats_half_background cats_then_dogs false
      (Some (Z.of_nat (size (list_to_set (seqZ 1 10) : gset Z)))) false
    = Ok background
    /\ size background
       = Nat.min 6 (size (nontarget_ids cats_half_background cats_then_dogs
                            (annotations cats_then_dogs)))
    /\ (size background <= 6)%nat
    /\ ((0 < size background)%nat
        <-> exists ann,
              ann ∈ annotations cats_then_dogs
              /\ matched cats_half_background cats_then_dogs ann = false).
Proof.
  apply (background_of_ten_targets cats_half_background cats_then_dogs "cat").
  - reflexivity.
  - reflexivity.
  - vm_compute. reflexivity.
  - vm_compute. reflexivity.
Defined.

(** On ten images that all show the target class, the target set has ten
    elements and the background set is empty. *)
Lemma ten_cats_no_background :
  exists targets background,
    target_classes cats_half_background = ["cat"]
    /\ background_percentage cats_half_background = 0.5%float
    /\ extract_images_id cats_half_background ten_cats true None false
       = Ok targets
    /\ size targets = 10%nat
    /\ extract_images_id cats_half_background ten_cats false
         (Some (Z.of_nat (size targets))) false = Ok background
    /\ ~ (0 < size background <= 6)%nat.
Proof.
  exists (list_to_set (seqZ 1 10)), ∅.
  split; [reflexivity|]. split; [reflexivity|].
  split; [vm_compute; reflexivity|]. split; [vm_compute; reflexivity|].
  split; [vm_compute; reflexivity|].
  rewrite size_empty. lia.
Qed.

(** ** Category injection *)

Lemma foldl_max_id (rest : list category) (m0 : Z) :
  let m := foldl (fun m c => Z.max m (cat_id c)) m0 rest in
  m0 <= m
  /\ (forall c, c ∈ rest -> cat_id c <= m)
  /\ (m = m0 \/ exists c, c ∈ rest /\ cat_id c = m).
Proof.
  revert m0. induction rest as [|c rest IH]; intros m0; simpl.
  - split; [lia|]. split; [|by left]. by intros c ?%elem_of_nil.
  - destruct (IH (Z.max m0 (cat_id c))) as (Hle & Hall & Hattained).
    split; [lia|]. split.
    + intros c' [->|Hin]%elem_of_cons; [lia|by apply Hall].
    + destruct Hattained as [Heq|(c' & Hin & Heq)].
      * destruct (Z.max_spec m0 (cat_id c)) as [[_ Hmax]|[_ Hmax]].
        -- right. exists c. split; [by left|]. lia.
        -- left. lia.
      * right. exists c'. split; [by right|done].
Qed.

(** [max_category_id] returns the greatest id of a non-empty list. *)
Lemma max_category_id_spec (cats : list category) :
  cats <> [] ->
  exists m,
    max_category_id cats = Ok m
    /\ (forall c, c ∈ cats -> cat_id c <= m)
    /\ (exists c, c ∈ cats /\ cat_id c = m).
Proof.
  destruct cats as [|c rest]; [done|]. intros _. simpl.
  destruct (foldl_max_id rest (cat_id c)) as (Hle & Hall & Hattained).
  eexists. split; [reflexivity|]. split.
  - intros c' [->|Hin]%elem_of_cons; [exact Hle|by apply Hall].
  - destruct Hattained as [Heq|(c' & Hin & Heq)].
    + exists c. split; [by left|done].
    + exists c'. split; [by right|done].
Qed.

Lemma find_named_None (name : string) (cats : list category) :
  find (fun cat => bool_decide (cat_name cat = name)) cats = None
  <-> forall cat, cat ∈ cats -> cat_name cat <> name.
Proof.
  induction cats as [|c cats IH]; simpl.
  - split; [|done]. by intros _ cat ?%elem_of_nil.
  - case_bool_decide as Hname.
    + split; [done|]. intros Hall. destruct (Hall c); [by left|done].
    + rewrite IH. split.
      * intros Hall cat [->|Hin]%elem_of_cons; [done|by apply Hall].
      * intros Hall cat Hin. apply Hall. by right.
Qed.

Lemma find_named_app_new (name : string) (cats : list category)
    (new : category) :
  cat_name new = name ->
  is_Some (find (fun cat => bool_decide (cat_name cat = name))
                (cats ++ [new])).
Proof.
  intros Hname. induction cats as [|c cats IH]; simpl.
  - by rewrite bool_decide_eq_true_2.
  - by destruct (bool_decide (cat_name c = name)).
Qed.

(** C5 (amended): on a catalog with at least one category,
    [create_new_class] returns, and running it again on its result changes
    nothing. When no category is named [single_class_name], the first run
    appends exactly one category, whose id is the greatest existing id plus
    one; when such a category exists, the catalog is left as it is. *)
Theorem create_new_class_idempotent {num : Type} (self : converter num)
    (data : coco_data num) :
  categories data <> [] ->
  exists data',
    create_new_class self data = Ok data'
    /\ create_new_class self data' = Ok data'
    /\ images data' = images data
    /\ annotations data' = annotations data
    /\ ((forall cat, cat ∈ categories data ->
           cat_name cat <> single_class_name self) ->
        exists m,
          (forall cat, cat ∈ categories data -> cat_id cat <= m)
          /\ (exists cat, cat ∈ categories data /\ cat_id cat = m)
          /\ categories data'
             = categories data
               ++ [ {| cat_id := m + 1;
                       cat_name := single_class_name self;
                       cat_supercategory := single_class_name self |} ])
    /\ ((exists cat, cat ∈ categories data
                     /\ cat_name cat = single_class_name self) ->
        data' = data).
Proof.
  intros Hcats. unfold create_new_class at 1.
  destruct (find _ (categories data)) as [found|] eqn:Hfind; simpl.
  - exists data. split; [done|]. split.
    { unfold create_new_class. by rewrite Hfind. }
    split; [done|]. split; [done|]. split; [|done].
    intros Habsent%find_named_None. congruence.
  - destruct (max_category_id_spec _ Hcats) as (m & Hm & Hmax & Hattained).
    rewrite Hm. simpl. eexists. split; [reflexivity|]. split.
    { unfold create_new_class. simpl.
      destruct (find_named_app_new (single_class_name self) (categories data)
                  {| cat_id := m + 1;
                     cat_name := single_class_name self;
                     cat_supercategory := single_class_name self |} eq_refl)
        as [found Hfound].
      by rewrite Hfound. }
    split; [done|]. split; [done|]. split.
    + intros _. exists m. by repeat split.
    + intros (cat & Hin & Hname).
      by destruct (proj1 (find_named_None _ _) Hfind cat Hin).
Qed.

Lemma create_new_class_idempotent_witness :
  exists data',
    create_new_class cats_merged cat_with_dog = Ok data'
    /\ create_new_class cats_merged data' = Ok data'
    /\ categories data'
       = cat_and_dog
         ++ [ {| cat_id := 3; cat_name := "new_class";
                 cat_supercategory := "new_class" |} ].
Proof.
  destruct (create_new_class_idempotent cats_merged cat_with_dog)
    as (data' & Hfirst & Hsecond & _ & _ & Habsent & _).
  - discriminate.
  - exists data'. split; [exact Hfirst|]. split; [exact Hsecond|].
    injection Hfirst as <-. reflexivity.
Defined.

(** On a catalog with no category the call raises: [max] of an empty
    sequence. *)
Lemma create_new_class_no_category :
  create_new_class cats_merged no_category = Raise ValueError.
Proof. reflexivity. Qed.

(** ** No target class *)

Lemma in_target_classes_nil {num : Type} (self : converter num)
    (o : option string) :
  target_classes self = [] -> in_target_classes self o = false.
Proof.
  intros Hnil. destruct o as [name|]; simpl; [|done].
  rewrite Hnil. apply bool_decide_eq_false_2. by intros ?%elem_of_nil.
Qed.

Lemma coco_to_yolo_loop_nil {num : Type} `{!PyNum num} (self : converter num)
    img data (anns : list (annotation num)) acc :
  target_classes self = [] ->
  coco_to_yolo_loop self img data anns acc = Ok acc.
Proof.
  intros Hnil. induction anns as [|ann anns IH]; simpl; [done|].
  by rewrite in_target_classes_nil.
Qed.

(** With no target class the selection is every image id of the split with
    an empty background set, whatever [background_percentage] is; in YOLO
    mode the label content of an image is empty, every annotation being
    left out; in the other mode it is the list of all the annotations of
    the image. *)
Lemma no_target_class_selects_all {num : Type} `{!PyNum num}
    (self : converter num) (data : coco_data num) :
  target_classes self = [] ->
  (exists selected : gset Z,
      select_images self data = Ok (selected, ∅)
      /\ forall id, id ∈ selected
                    <-> exists img, img ∈ images data /\ img_id img = id)
  /\ (forall img anns, coco_to_yolo_format self img anns data = Ok [])
  /\ (forall img id,
         label_payload self data img id false
         = Ok (if convert_to_yolo self then LabelText []
               else LabelJson (filter (fun ann => image_id ann = id)
                                      (annotations data)))).
Proof.
  intros Hnil. split; [|split].
  - exists (list_to_set (img_id <$> images data)). split.
    + unfold select_images. rewrite Hnil. reflexivity.
    + intros id. rewrite elem_of_list_to_set, list_elem_of_fmap.
      split; intros (img & H1 & H2); exists img; by split.
  - intros img anns. by apply coco_to_yolo_loop_nil.
  - intros img id. unfold label_payload, coco_to_yolo_format.
    destruct (convert_to_yolo self); [|done].
    by rewrite coco_to_yolo_loop_nil.
Qed.

(** C6: with every option at its default ([target_classes] empty, YOLO
    mode) the run takes the branch of lines 112 to 115 and 121 to 122: it
    selects every image, with an empty background set, and prints that it
    converts the annotations of all images. The label file of the image of
    [cat_with_dog], which has two annotations, is then written empty: no
    annotation is retained. *)
Theorem default_run_drops_annotations :
  target_classes all_defaults = []
  /\ convert_to_yolo all_defaults = true
  /\ select_images all_defaults cat_with_dog = Ok ({[1]}, ∅)
  /\ length (filter (fun ann => image_id ann = 1)
                    (annotations (cat_with_dog (num := float)))) = 2%nat
  /\ take 5 (init all_defaults (train_only cat_with_dog)).1
     = [Print (MsgProcessing "train");
        Print (MsgNumberOfImages "train" 1);
        Print (MsgConvertingAll "train");
        Copy "coco/images/train2017/1.jpg" "new_dataset/train/images";
        WriteFile "new_dataset/train/labels/1.txt" (LabelText [])]
  /\ label_payload all_defaults cat_with_dog (small_image 1) 1 false
     = Ok (LabelText [])
  /\ written (init all_defaults (train_only cat_with_dog)).1
             "new_dataset/train/labels/1.txt"
     = Some (LabelText []).
Proof.
  repeat split; vm_compute; reflexivity.
Qed.

(** ** The test split *)

(** Without an annotation file for the test split, the filtered test branch
    prints its message and then reads a local variable that was never
    assigned. *)
Lemma process_test_unbound {num : Type} `{!PyNum num} (self : converter num)
    (env : environment num) (dataset_type coco_annotation_file : string) :
  test_only_target_classes self = true ->
  read_annotations env coco_annotation_file = None ->
  process_test self env dataset_type coco_annotation_file
  = ([Print (MsgTestAnnotationNotFound coco_annotation_file)],
     Raise UnboundLocalError).
Proof.
  intros Honly Hnone. unfold process_test. by rewrite Honly, Hnone.
Qed.

(** C7: with [test_only_target_classes] set and no annotation file for the
    test split, the run processes train and valid, prints that the test
    annotations were not found, and ends in an [UnboundLocalError]; no
    manifest is written for the test split. *)
Theorem missing_test_annotations_is_fatal :
  test_only_target_classes cats_test_filtered = true
  /\ read_annotations (train_only (cat_with_dog (num := float)))
       (coco_annotation_test cats_test_filtered) = None
  /\ (exists log,
         init cats_test_filtered (train_only cat_with_dog)
         = (log, Raise UnboundLocalError)
         /\ last log
            = Some (Print (MsgTestAnnotationNotFound
                             "coco/annotations/instances_test2017.json"))
         /\ is_Some (written log "new_dataset/train.txt")
         /\ written log "new_dataset/test.txt" = None).
Proof.
  split; [reflexivity|]. split; [reflexivity|].
  eexists. split; [vm_compute; reflexivity|].
  split; [reflexivity|]. split; [vm_compute; eauto|].
  vm_compute. reflexivity.
Qed.

(** C8: in a run where the train split has one image, the train manifest
    holds the path relative to the output directory, and the test manifest
    holds the path of the copy with the output directory in front. *)
Theorem test_manifest_not_relative :
  exists log,
    init cats_merged (train_only cat_with_dog) = (log, Ok tt)
    /\ written log "new_dataset/train.txt"
       = Some (Manifest (path_join "train" ["images"; "1.jpg"]))
    /\ written log "new_dataset/test.txt"
       = Some (Manifest (path_join (output_dir cats_merged)
                           ["test"; "images"; "000000000001.jpg"]))
    /\ path_join (output_dir cats_merged)
         ["test"; "images"; "000000000001.jpg"]
       <> path_join "test" ["images"; "000000000001.jpg"].
Proof.
  eexists. split; [vm_compute; reflexivity|].
  split; [vm_compute; reflexivity|]. split; [vm_compute; reflexivity|].
  discriminate.
Qed.

(** ** Target and background sets *)

(** C2: an image with an annotation of a target class and an annotation of
    another class is in the target set and in the background set; it is
    copied twice, its label file is written a second time, empty, and the
    manifest lists it twice. *)
Theorem image_in_target_and_background :
  exists targets background log,
    select_images cats_half_background cat_with_dog
    = Ok (targets, background)
    /\ 1 ∈ targets
    /\ 1 ∈ background
    /\ ~ targets ## background
    /\ init cats_half_background (train_only cat_with_dog) = (log, Ok tt)
    /\ written log "new_dataset/train/labels/1.txt" = Some (LabelText [])
    /\ written log "new_dataset/train.txt"
       = Some (Manifest ("train/images/1.jpg" +:+ newline
                         +:+ "train/images/1.jpg")).
Proof.
  exists {[1]}, {[1]}. eexists.
  split; [vm_compute; reflexivity|].
  split; [set_solver|]. split; [set_solver|]. split; [set_solver|].
  split; [vm_compute; reflexivity|].
  split; vm_compute; reflexivity.
Qed.

(** ** What the selection depends on *)

Section Determinism.
Context {num : Type} `{!PyNum num}.
Variables self1 self2 : converter num.
Hypothesis same_targets : target_classes self1 = target_classes self2.
Hypothesis same_percentage :
  background_percentage self1 = background_percentage self2.

Lemma in_target_classes_ext (o : option string) :
  in_target_classes self1 o = in_target_classes self2 o.
Proof. unfold in_target_classes. by rewrite same_targets. Qed.

Lemma over_quota_ext (n : option Z) (k : nat) :
  over_quota self1 n k = over_quota self2 n k.
Proof. unfold over_quota. by rewrite same_percentage. Qed.

Lemma extract_ids_loop_ext (data : coco_data num) flag n anns s :
  extract_ids_loop self1 data flag n anns s
  = extract_ids_loop self2 data flag n anns s.
Proof.
  revert s. induction anns as [|ann anns IH]; intros s; simpl; [done|].
  rewrite in_target_classes_ext.
  destruct (Bool.eqb _ flag); [|apply IH].
  destruct (negb flag); [|apply IH].
  rewrite over_quota_ext.
  destruct (over_quota self2 n _) as [[|]|]; simpl; [done|apply IH|done].
Qed.

Lemma extract_filenames_loop_ext (data : coco_data num) flag n anns s :
  extract_filenames_loop self1 data flag n anns s
  = extract_filenames_loop self2 data flag n anns s.
Proof.
  revert s. induction anns as [|ann anns IH]; intros s; simpl; [done|].
  rewrite in_target_classes_ext.
  destruct (Bool.eqb _ flag); [|apply IH].
  destruct (image_by_id data (image_id ann)); simpl;
    (destruct (negb flag); [|by rewrite IH]);
    rewrite over_quota_ext;
    (destruct (over_quota self2 n _) as [[|]|]; simpl; by rewrite ?IH).
Qed.

End Determinism.

Lemma io_bind_ext {num A B : Type} (m : io num A) (k1 k2 : A -> io num B) :
  (forall a, k1 a = k2 a) -> io_bind m k1 = io_bind m k2.
Proof.
  intros Hk. destruct m as [log [a|e]]; simpl; [|done]. by rewrite Hk.
Qed.

Section SameWorld.
Context {num : Type} `{!PyNum num}.
Variable self : converter num.
Variables env1 env2 : environment num.
Hypothesis same_files :
  forall path, read_annotations env1 path = read_annotations env2 path.
Hypothesis same_listings : forall dir, listdir env1 dir = listdir env2 dir.
Hypothesis same_id_order : forall s, iter_ids env1 s = iter_ids env2 s.
Hypothesis same_name_order : forall s, iter_names env1 s = iter_names env2 s.

Lemma convert_annotations_same_world s (data : coco_data num) dir
    dataset_type records is_background :
  convert_annotations self env1 s data dir dataset_type records is_background
  = convert_annotations self env2 s data dir dataset_type records
      is_background.
Proof. unfold convert_annotations. by rewrite same_id_order. Qed.

(** The train and valid splits never call [random.sample]. *)
Lemma process_annotated_same_world dataset_type dir single
    (data : coco_data num) :
  process_annotated self env1 dataset_type dir single data
  = process_annotated self env2 dataset_type dir single data.
Proof.
  unfold process_annotated.
  apply io_bind_ext; intros _. apply io_bind_ext; intros data'.
  apply io_bind_ext; intros selection. apply io_bind_ext; intros _.
  rewrite convert_annotations_same_world.
  apply io_bind_ext; intros records. f_equal.
  destruct (negb _); [|done].
  apply io_bind_ext; intros _. apply convert_annotations_same_world.
Qed.

(** Without [test_num_images], the test split does not call it either. *)
Lemma process_test_same_world dataset_type coco_annotation_file :
  truthy_int (test_num_images self) = false ->
  process_test self env1 dataset_type coco_annotation_file
  = process_test self env2 dataset_type coco_annotation_file.
Proof.
  intros Hnone. unfold process_test.
  rewrite same_files, Hnone, same_listings. f_equal.
  destruct (test_only_target_classes self); [|done].
  destruct (read_annotations env2 coco_annotation_file); [|done].
  apply io_bind_ext; intros names. by rewrite same_name_order.
Qed.

Lemma process_dataset_same_world dataset_type coco_annotation_file dir
    single :
  truthy_int (test_num_images self) = false ->
  process_dataset self env1 dataset_type coco_annotation_file dir single
  = process_dataset self env2 dataset_type coco_annotation_file dir single.
Proof.
  intros Hnone. unfold process_dataset. apply io_bind_ext; intros _.
  destruct (bool_decide (dataset_type = "test"));
    [by apply process_test_same_world|].
  rewrite same_files.
  destruct (read_annotations env2 coco_annotation_file); [|done].
  apply process_annotated_same_world.
Qed.

Lemma init_same_world :
  truthy_int (test_num_images self) = false ->
  init self env1 = init self env2.
Proof.
  intros Hnone. unfold init.
  rewrite (process_dataset_same_world "train") by done.
  apply io_bind_ext; intros _.
  rewrite (process_dataset_same_world "valid") by done.
  apply io_bind_ext; intros _.
  by apply process_dataset_same_world.
Qed.

End SameWorld.

(** ** What the second scan can return *)

Section Selection.
Context {num : Type} `{!PyNum num}.
Variable self : converter num.
Variable data : coco_data num.

(** Whatever the quota, the background set holds only image ids of
    annotations that resolve to no target class. *)
Lemma background_scan_subset n anns (s r : gset Z) :
  extract_ids_loop self data false n anns s = Ok r ->
  r ⊆ s ∪ nontarget_ids self data anns.
Proof.
  revert s. induction anns as [|ann anns IH]; intros s;
    cbn [extract_ids_loop].
  - intros [= <-]. set_solver.
  - fold (matched self data ann).
    destruct (matched self data ann) eqn:Hm; cbn [Bool.eqb negb].
    + rewrite nontarget_ids_cons_matched by done. apply IH.
    + rewrite nontarget_ids_cons_other by done.
      destruct (over_quota self n _) as [[|]|]; cbn [mbind result_bind].
      * intros [= <-]. set_solver.
      * intros Hr%IH. set_solver.
      * discriminate.
Qed.

(** X6: the two sets of a selection are disjoint when no image carries both
    an annotation of a target class and an annotation of another class. *)
Lemma selection_disjoint_when_separate (targets background : gset Z) :
  (forall a b, a ∈ annotations data -> b ∈ annotations data ->
     matched self data a = true -> matched self data b = false ->
     image_id a <> image_id b) ->
  select_images self data = Ok (targets, background) ->
  targets ## background.
Proof.
  intros Hsep. unfold select_images, extract_images_id.
  destruct (negb (bool_decide (target_classes self = []))).
  - rewrite target_scan. cbn [mbind result_bind].
    assert (Hdisj : target_ids self data (annotations data)
                    ## nontarget_ids self data (annotations data)).
    { intros id.
      unfold target_ids, nontarget_ids.
      rewrite !elem_of_list_to_set, !list_elem_of_fmap.
      intros (a & -> & [Ha Hina]%list_elem_of_filter)
             (b & Heq & [Hb Hinb]%list_elem_of_filter).
      by apply (Hsep a b). }
    destruct (num_ltb _ _).
    + destruct (extract_ids_loop self data false _ _ ∅) as [bg|] eqn:Hbg;
        cbn [mbind result_bind]; [|discriminate].
      intros [= <- <-]. apply background_scan_subset in Hbg. set_solver.
    + intros [= <- <-]. set_solver.
  - cbn [mbind result_bind]. intros [= <- <-]. set_solver.
Qed.

End Selection.

(** ** The manifest of the train and valid splits *)

Lemma io_bind_Ok {num A B : Type} (m : io num A) (k : A -> io num B)
    (log : list (event num)) (b : B) :
  io_bind m k = (log, Ok b) ->
  exists log1 a log2,
    m = (log1, Ok a) /\ k a = (log2, Ok b) /\ log = log1 ++ log2.
Proof.
  destruct m as [log1 [a|e]]; simpl; [|discriminate].
  destruct (k a) as [log2 r] eqn:Hk. intros [= <- ->].
  exists log1, a, log2. by rewrite Hk.
Qed.

Section Manifest.
Context {num : Type} `{!PyNum num}.
Variable self : converter num.

Lemma materialized_cons (data : coco_data num) (id : Z) (ids : list Z) :
  materialized data (id :: ids)
  = materialized data [id] ++ materialized data ids.
Proof.
  unfold materialized. simpl. by destruct (image_by_id data id).
Qed.

(** One iteration records the image when its record is found, and nothing
    otherwise. *)
Lemma convert_image_records (data : coco_data num) dir dataset_type
    is_background records id log out :
  convert_image self data dir dataset_type is_background records id
  = (log, Ok out) ->
  out.1 = records.1
          ++ relative_image_paths dataset_type (materialized data [id]).
Proof.
  unfold convert_image, materialized. simpl.
  destruct (image_by_id data id) as [img|]; simpl.
  - destruct (label_payload self data img id is_background); simpl;
      [|discriminate].
    by intros [= <- <-].
  - intros [= <- <-]. by rewrite app_nil_r.
Qed.

Lemma convert_annotations_records (data : coco_data num) dir dataset_type
    is_background ids records log out :
  io_foldl (convert_image self data dir dataset_type is_background)
    records ids = (log, Ok out) ->
  out.1 = records.1 ++ relative_image_paths dataset_type
                         (materialized data ids).
Proof.
  revert records log. induction ids as [|id ids IH]; intros records log.
  - simpl. intros [= <- <-]. by rewrite app_nil_r.
  - cbn [io_foldl].
    intros (log1 & mid & log2 & Hone & Hrest & _)%io_bind_Ok.
    apply convert_image_records in Hone. apply IH in Hrest.
    rewrite Hrest, Hone, (materialized_cons data id ids).
    unfold relative_image_paths. by rewrite fmap_app, app_assoc.
Qed.

(** X15: for a split with an annotation file, a run that returns has
    written, as its last file, the manifest: the newline-join of the paths,
    relative to the output directory, of the images found for the target set
    and then for the background set, each in iteration order. *)
Lemma train_valid_manifest (env : environment num) dataset_type dir single
    (data : coco_data num) log :
  iterates_sets env ->
  process_annotated self env dataset_type dir single data = (log, Ok tt) ->
  exists data' targets background log',
    (data' = data \/ create_new_class self data = Ok data')
    /\ select_images self data' = Ok (targets, background)
    /\ let paths :=
         relative_image_paths dataset_type
           (materialized data'
              (iter_ids env targets ++ iter_ids env background)) in
       let list_path :=
         path_join (output_dir self) [dataset_type +:+ ".txt"] in
       log = log' ++ [WriteFile list_path
                        (Manifest (String.concat newline paths));
                      Print (MsgStored dataset_type list_path
                               (length paths))].
Proof.
  intros [Hiter _]. unfold process_annotated.
  intros (l1 & [] & l2 & _ & H & ->)%io_bind_Ok.
  apply io_bind_Ok in H as (l3 & data' & l4 & Hdata & H & ->).
  apply io_bind_Ok in H as (l5 & [targets background] & l6 & Hsel & H & ->).
  apply io_bind_Ok in H as (l7 & [] & l8 & _ & H & ->).
  apply io_bind_Ok in H as (l9 & rec1 & l10 & Hconv1 & H & ->).
  apply io_bind_Ok in H as (l11 & rec2 & l12 & Hconv2 & H & ->).
  apply io_bind_Ok in H as (l13 & [] & l14 & _ & H & ->).
  apply io_bind_Ok in H as (l15 & [] & l16 & Hwrite & Hprint & ->).
  exists data', targets, background.
  assert (Hpaths : rec2.1 = relative_image_paths dataset_type
            (materialized data'
               (iter_ids env targets ++ iter_ids env background))).
  { apply convert_annotations_records in Hconv1. simpl in Hconv1.
    unfold materialized, relative_image_paths.
    rewrite omap_app, fmap_app.
    fold (materialized data' (iter_ids env targets)).
    fold (relative_image_paths dataset_type
            (materialized data' (iter_ids env targets))).
    rewrite <- Hconv1. cbn [snd] in Hconv2.
    destruct (negb (bool_decide (background = ∅))) eqn:Hbg.
    - apply io_bind_Ok in Hconv2 as (? & [] & ? & _ & Hconv2 & _).
      by apply convert_annotations_records in Hconv2.
    - injection Hconv2 as _ <-.
      apply negb_false_iff, bool_decide_eq_true in Hbg. subst background.
      pose proof (Hiter ∅) as Hempty. rewrite elements_empty in Hempty.
      apply Permutation_nil_r in Hempty. rewrite Hempty. simpl.
      by rewrite app_nil_r. }
  simpl. rewrite <- Hpaths.
  injection Hwrite as <-. injection Hprint as <-.
  exists (l1 ++ l3 ++ l5 ++ l7 ++ l9 ++ l11 ++ l13). split; [|split].
  - destruct (truthy_str single).
    + right. unfold lift in Hdata. by injection Hdata.
    + left. by injection Hdata.
  - unfold lift in Hsel. by injection Hsel.
  - by rewrite <- !app_assoc.
Qed.

End Manifest.

(** * Further properties of the selection *)

Section SelectionFacts.
Context {num : Type} `{!PyNum num}.
Variable self : converter num.
Variable data : coco_data num.

Lemma elem_of_target_ids anns id :
  id ∈ target_ids self data anns
  <-> exists ann, ann ∈ anns /\ image_id ann = id
                  /\ matched self data ann = true.
Proof.
  unfold target_ids. rewrite elem_of_list_to_set, list_elem_of_fmap.
  split.
  - intros (ann & -> & [Hm Hin]%list_elem_of_filter). by exists ann.
  - intros (ann & Hin & <- & Hm). exists ann. split; [done|].
    by apply list_elem_of_filter.
Qed.

Lemma elem_of_nontarget_ids anns id :
  id ∈ nontarget_ids self data anns
  <-> exists ann, ann ∈ anns /\ image_id ann = id
                  /\ matched self data ann = false.
Proof.
  unfold nontarget_ids. rewrite elem_of_list_to_set, list_elem_of_fmap.
  split.
  - intros (ann & -> & [Hm Hin]%list_elem_of_filter). by exists ann.
  - intros (ann & Hin & <- & Hm). exists ann. split; [done|].
    by apply list_elem_of_filter.
Qed.

(** With a count, the second scan returns; the set it returns contains the
    set it started from. *)
Lemma background_scan_returns n anns (s : gset Z) :
  exists r, extract_ids_loop self data false (Some n) anns s = Ok r
            /\ s ⊆ r.
Proof.
  revert s. induction anns as [|ann anns IH]; intros s;
    cbn [extract_ids_loop].
  - by exists s.
  - destruct (Bool.eqb _ false); cbn [negb]; [|apply IH].
    cbn [over_quota mbind result_bind].
    destruct (num_ltb _ _).
    + eexists. split; [done|]. set_solver.
    + destruct (IH ({[image_id ann]} ∪ s)) as (r & Hr & Hsub).
      exists r. split; [done|]. set_solver.
Qed.

(** No scan removes an element. *)
Lemma scan_grows flag n anns (s r : gset Z) :
  extract_ids_loop self data flag n anns s = Ok r -> s ⊆ r.
Proof.
  revert s. induction anns as [|a anns IH]; intros s;
    cbn [extract_ids_loop].
  - by intros [= <-].
  - destruct (Bool.eqb _ flag); [|apply IH].
    destruct (negb flag).
    + destruct (over_quota self n _) as [[|]|]; cbn [mbind result_bind];
        [| |discriminate].
      * intros [= <-]. set_solver.
      * intros Hr%IH. set_solver.
    + intros Hr%IH. set_solver.
Qed.

(** The second scan inserts before it tests: a candidate in the list gives a
    set that is not empty. *)
Lemma background_scan_inhabited n anns (s r : gset Z) (ann : annotation num) :
  ann ∈ anns ->
  matched self data ann = false ->
  extract_ids_loop self data false n anns s = Ok r ->
  r <> ∅.
Proof.
  revert s. induction anns as [|a anns IH]; intros s Hin Hm;
    cbn [extract_ids_loop]; [by apply elem_of_nil in Hin|].
  fold (matched self data a).
  destruct (matched self data a) eqn:Ha; cbn [Bool.eqb negb].
  - apply elem_of_cons in Hin as [->|Hin]; [congruence|]. by apply IH.
  - destruct (over_quota self n _) as [[|]|]; cbn [mbind result_bind];
      [| |discriminate].
    + intros [= <-]. set_solver.
    + intros Hr%scan_grows. set_solver.
Qed.

End SelectionFacts.

(** The selection returns. *)
Lemma select_images_total {num : Type} `{!PyNum num} (self : converter num)
    (data : coco_data num) :
  exists targets background,
    select_images self data = Ok (targets, background).
Proof.
  unfold select_images, extract_images_id.
  destruct (negb (bool_decide (target_classes self = [])));
    [|by do 2 eexists].
  rewrite target_scan. cbn [mbind result_bind].
  destruct (num_ltb _ _); [|by do 2 eexists].
  destruct (background_scan_returns self data
              (Z.of_nat (size (∅ ∪ target_ids self data (annotations data))))
              (annotations data) ∅) as (bg & -> & _).
  by do 2 eexists.
Qed.

(** X1: the first scan of [extract_images_id] never stops early and never
    raises, whatever count it is given: it returns exactly the image ids
    carried by an annotation whose category (the first of the catalog with
    the [category_id] of the annotation) has a name in [target_classes]. *)
Theorem target_set_exact {num : Type} `{!PyNum num} (self : converter num)
    (data : coco_data num) (n : option Z) :
  exists targets,
    extract_images_id self data true n false = Ok targets
    /\ forall id,
         id ∈ targets
         <-> exists ann, ann ∈ annotations data /\ image_id ann = id
                         /\ target_annotation self data ann.
Proof.
  exists (target_ids self data (annotations data)). split.
  - unfold extract_images_id. rewrite target_scan.
    by rewrite (left_id_L ∅ (∪)).
  - intros id. rewrite elem_of_target_ids.
    split; intros (ann & Hin & Hid & Hm); exists ann;
      (split; [exact Hin|]); (split; [exact Hid|]);
      by apply matched_target.
Qed.

(** On the sample, the cat of image 1 is of the target class, and the scan
    returns image 1. *)
Example target_set_of_sample :
  extract_images_id cats_half_background cat_with_dog true None false
  = Ok {[1]}.
Proof. vm_compute. reflexivity. Qed.

(** X22: the test that the transcoder and the scans run on an annotation
    (lines 161 to 164, 196 to 199 and 219 to 224) succeeds exactly when the
    first category of the catalog with the [category_id] of the annotation
    has a name in [target_classes]; it fails when no category has this id
    or when the first one has another name. *)
Theorem matched_iff_target_annotation {num : Type} (self : converter num)
    (data : coco_data num) (ann : annotation num) :
  (matched self data ann = true <-> target_annotation self data ann)
  /\ (matched self data ann = false
      <-> forall name, resolves_to data (category_id ann) name ->
                       name ∉ target_classes self).
Proof.
  split; [apply matched_target|].
  rewrite matched_other. unfold target_annotation. split.
  - intros Hno name Hres Hin. apply Hno. by exists name.
  - intros Hall (name & Hres & Hin). by apply (Hall name).
Qed.

(** X2: given a count, the second scan of [extract_images_id] returns in any
    arithmetic; every id it returns is carried by an annotation that resolves
    to no target class, and the set is empty only when there is no such
    annotation (the quota is tested after the insertion). *)
Theorem background_set_sound {num : Type} `{!PyNum num} (self : converter num)
    (data : coco_data num) (n : Z) :
  exists background,
    extract_images_id self data false (Some n) false = Ok background
    /\ (forall id, id ∈ background ->
          exists ann, ann ∈ annotations data /\ image_id ann = id
                      /\ matched self data ann = false)
    /\ (background = ∅
        <-> forall ann, ann ∈ annotations data ->
                        matched self data ann = true).
Proof.
  unfold extract_images_id.
  destruct (background_scan_returns self data n (annotations data) ∅)
    as (bg & Hbg & _).
  exists bg. split; [exact Hbg|].
  pose proof (background_scan_subset self data _ _ _ _ Hbg) as Hsub.
  rewrite (left_id_L ∅ (∪)) in Hsub. split.
  - intros id Hid. by apply elem_of_nontarget_ids, Hsub.
  - split.
    + intros -> ann Hin.
      destruct (matched self data ann) eqn:Hm; [done|].
      by destruct (background_scan_inhabited self data _ _ _ _ ann Hin Hm Hbg).
    + intros Hall. apply set_eq. intros id. split; [|set_solver].
      intros (ann & Hin & _ & Hm)%Hsub%elem_of_nontarget_ids.
      rewrite (Hall ann Hin) in Hm. discriminate.
Qed.

(** X3: called for background images without a count (the default [None]),
    [extract_images_id] raises [TypeError] at the first annotation that
    resolves to no target class, and returns the empty set when there is
    none. *)
Theorem background_without_count {num : Type} `{!PyNum num}
    (self : converter num) (data : coco_data num) :
  extract_images_id self data false None false
  = if forallb (matched self data) (annotations data)
    then Ok ∅ else Raise TypeError.
Proof.
  unfold extract_images_id.
  enough (forall s : gset Z,
             extract_ids_loop self data false None (annotations data) s
             = if forallb (matched self data) (annotations data)
               then Ok s else Raise TypeError) as Hloop by apply Hloop.
  induction (annotations data) as [|ann anns IH]; intros s;
    cbn [extract_ids_loop forallb]; [done|].
  fold (matched self data ann).
  destruct (matched self data ann); cbn [Bool.eqb negb andb]; [apply IH|].
  done.
Qed.

(** In binary64 the test of line 203 compares the size with the integer
    part of the quota as the product gives it, rounded. *)
Lemma rounded_over_quota (self : converter Q) (n : Z) (k : nat) :
  let quota := num_mul (num_of_Z n) (background_percentage self) in
  (0 <= quota)%Q ->
  (Qfloor quota + 1 < 2 ^ 53)%Z ->
  (k <= S (Z.to_nat (Qfloor quota)))%nat ->
  over_quota self (Some n) k
  = Ok (bool_decide (Z.to_nat (Qfloor quota) < k)%nat).
Proof.
  intros q Hpos Hsmall Hk. unfold over_quota. f_equal.
  cbn [num_ltb rounded_PyNum]. fold q.
  pose proof (Qfloor_le q) as Hfloor.
  pose proof (Qlt_floor q) as Hceil.
  assert (0 < Qfloor q + 1)%Z as Hnonneg
    by (rewrite Zlt_Qlt; eapply Qle_lt_trans; [exact Hpos|exact Hceil]).
  assert (num_of_Z (Z.of_nat k) == inject_Z (Z.of_nat k))%Q as Hexact
    by (apply round53_small_int; lia).
  destruct (Qle_bool (num_of_Z (Z.of_nat k)) q) eqn:Hle; cbn [negb];
    symmetry.
  - apply bool_decide_eq_false_2. apply Qle_bool_iff in Hle.
    rewrite Hexact in Hle.
    assert (Z.of_nat k < Qfloor q + 1)%Z
      by (rewrite Zlt_Qlt; eapply Qle_lt_trans; [exact Hle|exact Hceil]).
    lia.
  - apply bool_decide_eq_true_2.
    assert (~ (Z.of_nat k <= Qfloor q)%Z) as Hnot.
    { intros Hk'. rewrite Zle_Qle in Hk'.
      apply not_true_iff_false in Hle. apply Hle.
      apply Qle_bool_iff. rewrite Hexact.
      eapply Qle_trans; [exact Hk'|exact Hfloor]. }
    lia.
Qed.

(** X4: in binary64, for a count [n] below 2^53 and a
    [background_percentage] that neither overflows nor underflows, when the
    quota (the product [n * background_percentage] as binary64 rounds it) is
    not negative, the second scan returns
    min(floor(quota) + 1, number of candidate image ids) image ids: it
    overshoots the quota by one image whenever there are enough
    candidates. With n = 3 and 0.3333333333333333 the product rounds to 1
    and the scan returns 2 image ids. *)
Theorem background_size_in_binary64 (self : converter Q)
    (data : coco_data Q) (n : Z) :
  let quota := num_mul (num_of_Z n) (background_percentage self) in
  binary64_input (background_percentage self) ->
  (Z.abs n < 2 ^ 53)%Z ->
  (0 <= quota)%Q ->
  (Qfloor quota + 1 < 2 ^ 53)%Z ->
  exists background,
    extract_images_id self data false (Some n) false = Ok background
    /\ size background
       = Nat.min (S (Z.to_nat (Qfloor quota)))
                 (size (nontarget_ids self data (annotations data))).
Proof.
  intros quota _ _ Hpos Hsmall. unfold extract_images_id.
  destruct (background_scan self data n (Z.to_nat (Qfloor quota))
              (fun k Hk => rounded_over_quota self n k Hpos Hsmall Hk)
              (annotations data) ∅) as (bg & Hbg & _ & _ & Hsize).
  { rewrite size_empty. lia. }
  rewrite (left_id_L ∅ (∪)) in Hsize. by exists bg.
Qed.

Lemma background_size_in_binary64_witness :
  (num_mul (num_of_Z 3) (background_percentage cats_third_background) == 1)%Q
  /\ (exists background,
         extract_images_id cats_third_background cats_then_dogs false
           (Some 3) false = Ok background
         /\ size background = 2%nat)
  /\ (exists background,
         extract_images_id cats_third_background_float cats_then_dogs false
           (Some 3) false = Ok background
         /\ size background = 2%nat).
Proof.
  split; [vm_compute; reflexivity|]. split.
  - destruct (background_size_in_binary64 cats_third_background
                cats_then_dogs 3) as (bg & Hbg & Hsize).
    + split; [vm_compute; reflexivity|].
      right. split; vm_compute; discriminate.
    + reflexivity.
    + vm_compute. discriminate.
    + vm_compute. reflexivity.
    + exists bg. split; [exact Hbg|]. rewrite Hsize. vm_compute. reflexivity.
  - eexists. split; [vm_compute; reflexivity|]. vm_compute. reflexivity.
Defined.

(** X5: the selection of a split never raises. Its first set is every image
    id when [target_classes] is empty and the ids carried by annotations of a
    target class otherwise; its second set is empty unless [target_classes]
    is not empty and [background_percentage > 0]. *)
Theorem select_images_returns {num : Type} `{!PyNum num}
    (self : converter num) (data : coco_data num) :
  exists targets background,
    select_images self data = Ok (targets, background)
    /\ ((target_classes self = []
         /\ targets = list_to_set (img_id <$> images data))
        \/ (target_classes self <> []
            /\ targets = target_ids self data (annotations data)))
    /\ (background = ∅
        \/ (target_classes self <> []
            /\ num_ltb (num_of_Z 0) (background_percentage self) = true)).
Proof.
  unfold select_images.
  destruct (decide (target_classes self = [])) as [Hnil|Hsome].
  - rewrite bool_decide_eq_true_2 by done. cbn [negb].
    do 2 eexists. split; [reflexivity|]. split; [by left|by left].
  - rewrite bool_decide_eq_false_2 by done. cbn [negb].
    unfold extract_images_id. rewrite target_scan.
    rewrite (left_id_L ∅ (∪)). cbn [mbind result_bind].
    destruct (num_ltb _ _) eqn:Hbp.
    + destruct (background_scan_returns self data
                  (Z.of_nat (size (target_ids self data (annotations data))))
                  (annotations data) ∅) as (bg & Hbg & _).
      rewrite Hbg. cbn [mbind result_bind].
      do 2 eexists. split; [reflexivity|]. split; [by right|by right].
    + do 2 eexists. split; [reflexivity|]. split; [by right|by left].
Qed.

Lemma selection_disjoint_when_separate_witness :
  exists targets background : gset Z,
    select_images cats_half_background cats_then_dogs
    = Ok (targets, background)
    /\ targets ## background.
Proof.
  destruct (select_images_total cats_half_background cats_then_dogs)
    as (targets & background & Hsel).
  exists targets, background. split; [exact Hsel|].
  apply (selection_disjoint_when_separate cats_half_background
           cats_then_dogs); [|exact Hsel].
  assert (Hall : Forall (fun a : annotation float =>
            Forall (fun b : annotation float =>
              matched cats_half_background cats_then_dogs a = true ->
              matched cats_half_background cats_then_dogs b = false ->
              image_id a <> image_id b)
              (annotations cats_then_dogs))
            (annotations cats_then_dogs)).
  { repeat (constructor;
              [repeat (constructor; [vm_compute; congruence|]);
               constructor|]).
    constructor. }
  intros a b Ha Hb.
  rewrite Forall_forall in Hall. specialize (Hall a Ha).
  rewrite Forall_forall in Hall. exact (Hall b Hb).
Defined.

(** * File names of the test split *)

Section Filenames.
Context {num : Type} `{!PyNum num}.
Variable self : converter num.
Variable data : coco_data num.

Lemma extract_filenames_target_loop n anns (s : gset string) :
  extract_filenames_loop self data true n anns s
  = (missing_image_messages self data anns,
     Ok (s ∪ target_names self data anns)).
Proof.
  revert s. induction anns as [|ann anns IH]; intros s;
    cbn [extract_filenames_loop].
  - unfold io_ret, missing_image_messages, target_names. simpl.
    by rewrite (right_id_L ∅ (∪)).
  - fold (matched self data ann). unfold missing_image_messages, target_names.
    destruct (matched self data ann) eqn:Hm; cbn [Bool.eqb negb].
    + rewrite (filter_cons_True (fun a => matched self data a = true)) by done.
      cbn [omap list_omap].
      destruct (image_by_id data (image_id ann)) as [img|] eqn:Himg.
      * rewrite filter_cons_False by (intros [_ ?]; congruence).
        cbn [io_bind io_ret].
        rewrite IH. unfold missing_image_messages, target_names.
        cbn [app fmap list_fmap list_to_set]. f_equal. f_equal. set_solver.
      * rewrite filter_cons_True by done.
        cbn [io_bind io_ret emit].
        rewrite IH. unfold missing_image_messages, target_names.
        reflexivity.
    + rewrite filter_cons_False by (intros [? _]; congruence).
      rewrite (filter_cons_False (fun a => matched self data a = true))
        by congruence.
      apply IH.
Qed.

Lemma elem_of_target_names anns name :
  name ∈ target_names self data anns
  <-> exists id img,
        id ∈ target_ids self data anns
        /\ image_by_id data id = Some img /\ file_name img = name.
Proof.
  unfold target_names.
  rewrite elem_of_list_to_set, list_elem_of_fmap. split.
  - intros (img & -> & (ann & [Hm Hin]%list_elem_of_filter & Himg)%list_elem_of_omap).
    exists (image_id ann), img. split; [|done].
    apply elem_of_target_ids. by exists ann.
  - intros (id & img & (ann & Hin & <- & Hm)%elem_of_target_ids & Himg & <-).
    exists img. split; [done|]. apply list_elem_of_omap.
    exists ann. split; [|done]. by apply list_elem_of_filter.
Qed.

End Filenames.

(** X7: for the target images, [extract_images_filename] never raises, and
    returns the file names of the images that have a record among the ids
    [extract_images_id] returns on the same arguments; it prints one message
    for each annotation of a target class whose image has no record, and
    nothing else. *)
Theorem filenames_of_target_ids {num : Type} `{!PyNum num}
    (self : converter num) (data : coco_data num) (n : option Z) :
  exists ids names,
    extract_images_id self data true n false = Ok ids
    /\ extract_images_filename self data true n false
       = (missing_image_messages self data (annotations data), Ok names)
    /\ forall name,
         name ∈ names
         <-> exists id img,
               id ∈ ids /\ image_by_id data id = Some img
               /\ file_name img = name.
Proof.
  exists (target_ids self data (annotations data)),
         (target_names self data (annotations data)).
  split; [|split].
  - unfold extract_images_id. rewrite target_scan.
    by rewrite (left_id_L ∅ (∪)).
  - unfold extract_images_filename. rewrite extract_filenames_target_loop.
    by rewrite (left_id_L ∅ (∪)).
  - apply elem_of_target_names.
Qed.

(** * Category injection and the rest of the run *)

Section Injection.
Context {num : Type} `{!PyNum num}.
Variable self : converter num.

(** What [create_new_class] can return. *)
Lemma create_new_class_inv (data data' : coco_data num) :
  create_new_class self data = Ok data' ->
  data' = data
  \/ exists m,
       max_category_id (categories data) = Ok m
       /\ images data' = images data
       /\ annotations data' = annotations data
       /\ categories data'
          = categories data
            ++ [ {| cat_id := m + 1;
                    cat_name := single_class_name self;
                    cat_supercategory := single_class_name self |} ].
Proof.
  unfold create_new_class.
  destruct (cat_id <$> find _ (categories data)); [intros [= <-]; by left|].
  destruct (max_category_id (categories data)) as [m|e];
    cbn [mbind result_bind]; [|discriminate].
  intros [= <-]. right. by exists m.
Qed.

Lemma create_new_class_returns (data : coco_data num) :
  categories data <> [] ->
  exists data', create_new_class self data = Ok data'.
Proof.
  intros Hcats. unfold create_new_class.
  destruct (cat_id <$> find _ (categories data)); [by eexists|].
  destruct (max_category_id_spec _ Hcats) as (m & -> & _).
  cbn [mbind result_bind]. by eexists.
Qed.



End Injection.

(** Two catalogs that give the same name to the category of each annotation
    of a list are the same to the loops that walk the list. *)
Section SameNames.
Context {num : Type} `{!PyNum num}.
Variable self : converter num.
Variables data data' : coco_data num.



End SameNames.


Lemma io_bind_ret {num A B : Type} (a : A) (k : A -> io num B) :
  io_bind ([], Ok a) k = k a.
Proof. simpl. by destruct (k a). Qed.

Section SameCatalog.
Context {num : Type} `{!PyNum num}.
Variable self : converter num.
Variables data data' : coco_data num.
Hypothesis same_images : images data' = images data.
Hypothesis same_annotations : annotations data' = annotations data.
Hypothesis same_names :
  Forall (fun ann => category_name_of data' (category_id ann)
                     = category_name_of data (category_id ann))
         (annotations data).




End SameCatalog.

(** X8: [create_new_class] keeps the category ids distinct: after a call
    that returns, no two categories share an id if none did before. *)
Theorem create_new_class_keeps_ids_distinct {num : Type}
    (self : converter num) (data data' : coco_data num) :
  NoDup (cat_id <$> categories data) ->
  create_new_class self data = Ok data' ->
  NoDup (cat_id <$> categories data').
Proof.
  intros Hnodup [->|(m & Hm & _ & _ & Hcats)]%create_new_class_inv; [done|].
  rewrite Hcats, fmap_app. apply NoDup_app. split; [done|]. split.
  - intros id (c & -> & Hin)%list_elem_of_fmap Hnew.
    apply list_elem_of_singleton in Hnew. simpl in Hnew.
    destruct (categories data) as [|c0 rest] eqn:Hlist; [by apply elem_of_nil in Hin|].
    destruct (max_category_id_spec (c0 :: rest)) as (m' & Hm' & Hmax & _);
      [done|].
    rewrite Hm in Hm'. injection Hm' as <-.
    specialize (Hmax c Hin). lia.
  - simpl. apply NoDup_singleton.
Qed.

Lemma create_new_class_keeps_ids_distinct_witness :
  exists data',
    create_new_class cats_merged (cat_with_dog (num := float)) = Ok data'
    /\ NoDup (cat_id <$> categories data').
Proof.
  eexists. split; [reflexivity|].
  apply (create_new_class_keeps_ids_distinct cats_merged cat_with_dog);
    [|reflexivity].
  repeat constructor; set_solver.
Defined.



(** * More on the transcoder *)

Section TranscoderErrors.
Context {num : Type} `{!PyNum num}.
Variable self : converter num.

Lemma yolo_line_of_zero img (ann : annotation num) (name : string) :
  name ∈ target_classes self ->
  num_is_zero (width img) || num_is_zero (height img) = true ->
  yolo_line_of self img ann (Some name) = Raise ZeroDivisionError.
Proof.
  intros Hin Hzero.
  destruct (output_class_ok self name Hin) as (i & Hi & _).
  unfold yolo_line_of, py_div. rewrite Hi. cbn [mbind result_bind].
  destruct (num_is_zero (width img)); [done|].
  cbn [mbind result_bind]. simpl in Hzero. by rewrite Hzero.
Qed.

Lemma coco_to_yolo_loop_cases img data (anns : list (annotation num)) acc :
  if existsb (matched self data) anns
     && (num_is_zero (width img) || num_is_zero (height img))
  then coco_to_yolo_loop self img data anns acc = Raise ZeroDivisionError
  else exists lines, coco_to_yolo_loop self img data anns acc = Ok lines.
Proof.
  revert acc. induction anns as [|ann anns IH]; intros acc;
    cbn [existsb coco_to_yolo_loop]; [by eexists|].
  fold (matched self data ann).
  destruct (matched self data ann) eqn:Hm; cbn [orb andb]; [|apply IH].
  unfold matched in Hm.
  destruct (in_target_classes_Some self _ Hm) as (name & Hname & Hin).
  rewrite Hname.
  destruct (num_is_zero (width img) || num_is_zero (height img)) eqn:Hzero.
  - by rewrite yolo_line_of_zero.
  - apply orb_false_iff in Hzero as [Hw Hh].
    destruct (yolo_line_of_ok self img ann name Hw Hh Hin) as (line & -> & _).
    cbn [mbind result_bind].
    specialize (IH (acc ++ [line])). by rewrite andb_false_r in IH.
Qed.

End TranscoderErrors.

(** X11: [coco_to_yolo_format] fails in one way only: it raises
    [ZeroDivisionError] exactly when some annotation of the list resolves to
    a target class and the width or the height of the image is zero; in
    every other case it returns. *)
Theorem coco_to_yolo_format_outcome {num : Type} `{!PyNum num}
    (self : converter num) (img : image num) (anns : list (annotation num))
    (data : coco_data num) :
  if existsb (matched self data) anns
     && (num_is_zero (width img) || num_is_zero (height img))
  then coco_to_yolo_format self img anns data = Raise ZeroDivisionError
  else exists lines, coco_to_yolo_format self img anns data = Ok lines.
Proof.
  unfold coco_to_yolo_format.
  pose proof (coco_to_yolo_loop_cases self img data anns []) as Hcases.
  destruct (existsb (matched self data) anns
            && (num_is_zero (width img) || num_is_zero (height img)));
    exact Hcases.
Qed.

(** * The effects of [convert_annotations] *)

Section ConvertEffects.
Context {num : Type} `{!PyNum num}.
Variable self : converter num.
Variable data : coco_data num.

Lemma image_by_id_Some id img :
  image_by_id data id = Some img -> img ∈ images data /\ img_id img = id.
Proof.
  unfold image_by_id. intros [Hin Hid]%find_some.
  split; [by apply list_elem_of_In|]. by apply bool_decide_eq_true in Hid.
Qed.

(** One iteration, case by case. *)
Lemma convert_image_cases dir dataset_type is_background records id :
  convert_image self data dir dataset_type is_background records id
  = match image_by_id data id with
    | None => ([], Ok records)
    | Some img =>
        match label_payload self data img id is_background with
        | Ok content =>
            (image_events self dir dataset_type img content,
             Ok (records.1 ++ relative_image_paths dataset_type [img],
                 records.2 ++ [label_path self dataset_type img]))
        | Raise e =>
            ([Copy (path_join dir [file_name img])
                   (path_join (output_dir self) [dataset_type; "images"])],
             Raise e)
        end
    end.
Proof.
  unfold convert_image.
  destruct (image_by_id data id) as [img|]; [|done].
  by destruct (label_payload self data img id is_background).
Qed.

Lemma convert_loop_effects dir dataset_type is_background ids records log
    out :
  io_foldl (convert_image self data dir dataset_type is_background)
    records ids = (log, Ok out) ->
  exists contents,
    Forall2 (fun img content =>
               label_payload self data img (img_id img) is_background
               = Ok content)
            (materialized data ids) contents
    /\ log = concat (zip_with (image_events self dir dataset_type)
                       (materialized data ids) contents)
    /\ out.1 = records.1
               ++ relative_image_paths dataset_type (materialized data ids)
    /\ out.2 = records.2
               ++ (label_path self dataset_type <$> materialized data ids).
Proof.
  revert records log. induction ids as [|id ids IH]; intros records log.
  - simpl. intros [= <- <-]. exists []. rewrite !app_nil_r.
    by repeat split; try constructor.
  - cbn [io_foldl].
    intros (log1 & mid & log2 & Hone & Hrest & ->)%io_bind_Ok.
    apply IH in Hrest as (contents & Hall & -> & Hout1 & Hout2).
    rewrite convert_image_cases in Hone.
    unfold materialized in *. cbn [omap list_omap].
    destruct (image_by_id data id) as [img|] eqn:Himg.
    + destruct (label_payload self data img id is_background)
        as [content|e] eqn:Hpayload; [|discriminate].
      injection Hone as <- <-. simpl in Hout1, Hout2.
      apply image_by_id_Some in Himg as [_ <-].
      exists (content :: contents). split; [by constructor|].
      split; [done|].
      rewrite Hout1, Hout2. unfold relative_image_paths.
      by rewrite <- !app_assoc.
    + injection Hone as <- <-. by exists contents.
Qed.

Lemma label_payload_raises img id is_background e :
  label_payload self data img id is_background = Raise e ->
  e = ZeroDivisionError
  /\ is_background = false
  /\ convert_to_yolo self = true
  /\ num_is_zero (width img) || num_is_zero (height img) = true.
Proof.
  unfold label_payload. destruct is_background; [discriminate|].
  destruct (convert_to_yolo self); [|discriminate].
  pose proof (coco_to_yolo_loop_cases self img data
                (filter (fun ann => image_id ann = id) (annotations data)) [])
    as Hcases.
  unfold coco_to_yolo_format.
  destruct (existsb _ _ && _) eqn:Hcond.
  - rewrite Hcases. cbn [mbind result_bind]. intros [= <-].
    apply andb_true_iff in Hcond as [_ Hzero]. by repeat split.
  - destruct Hcases as [lines ->]. discriminate.
Qed.

Lemma convert_loop_failure dir dataset_type is_background ids records log e :
  io_foldl (convert_image self data dir dataset_type is_background)
    records ids = (log, Raise e) ->
  e = ZeroDivisionError
  /\ is_background = false
  /\ convert_to_yolo self = true
  /\ exists img log',
       img ∈ images data
       /\ num_is_zero (width img) || num_is_zero (height img) = true
       /\ log = log' ++ [Copy (path_join dir [file_name img])
                           (path_join (output_dir self)
                              [dataset_type; "images"])].
Proof.
  revert records log. induction ids as [|id ids IH]; intros records log;
    cbn [io_foldl]; [discriminate|].
  rewrite convert_image_cases.
  destruct (image_by_id data id) as [img|] eqn:Himg.
  - destruct (label_payload self data img id is_background)
      as [content|e'] eqn:Hpayload.
    + cbn [io_bind].
      destruct (io_foldl _ _ ids) as [log2 r] eqn:Hrest.
      intros [= <- ->].
      destruct (IH _ _ Hrest) as (He & Hbg & Hyolo & img' & log' & Hin & Hz & ->).
      repeat split; [done..|].
      exists img', (image_events self dir dataset_type img content ++ log').
      by rewrite <- app_assoc.
    + cbn [io_bind]. intros [= <- <-].
      apply label_payload_raises in Hpayload as (-> & Hbg & Hyolo & Hz).
      apply image_by_id_Some in Himg as [Hin _].
      repeat split; [done..|]. by exists img, [].
  - cbn [io_bind].
    destruct (io_foldl _ _ ids) as [log2 r] eqn:Hrest.
    intros [= <- ->]. by apply (IH records).
Qed.

End ConvertEffects.

(** X12: when [convert_annotations] returns, its events are, for each id of
    the set in iteration order that has an image record, the copy of the
    image followed by the writing of its label file, and nothing else (an id
    without record is passed over in silence); [images_record] and
    [labels_record] have grown by one entry for each of these images. *)
Theorem convert_annotations_effects {num : Type} `{!PyNum num}
    (self : converter num) (env : environment num) (s : gset Z)
    (data : coco_data num) (dir dataset_type : string)
    (records : list string * list string) (is_background : bool)
    (log : list (event num)) (out : list string * list string) :
  convert_annotations self env s data dir dataset_type records is_background
  = (log, Ok out) ->
  exists contents,
    Forall2 (fun img content =>
               label_payload self data img (img_id img) is_background
               = Ok content)
            (materialized data (iter_ids env s)) contents
    /\ log = concat (zip_with (image_events self dir dataset_type)
                       (materialized data (iter_ids env s)) contents)
    /\ out.1 = records.1
               ++ relative_image_paths dataset_type
                    (materialized data (iter_ids env s))
    /\ out.2 = records.2
               ++ (label_path self dataset_type
                     <$> materialized data (iter_ids env s)).
Proof.
  unfold convert_annotations. intros Hrun.
  destruct (convert_loop_effects self data dir dataset_type is_background
              (iter_ids env s) records log out Hrun)
    as (contents & Hpayloads & Hlog & Himages & Hlabels).
  exists contents. by repeat split.
Qed.

Lemma convert_annotations_effects_witness :
  exists log out,
    convert_annotations cats_half_background (train_only cat_with_dog)
      {[1]} cat_with_dog "coco/images/train2017" "train" ([], []) false
    = (log, Ok out)
    /\ length log = 2%nat
    /\ out = (["train/images/1.jpg"], ["new_dataset/train/labels/1.txt"]).
Proof.
  edestruct (convert_annotations_effects cats_half_background
               (train_only cat_with_dog) {[1]} cat_with_dog
               "coco/images/train2017" "train" ([], []) false)
    as (contents & _ & _ & _ & _).
  { vm_compute. reflexivity. }
  eexists _, _. split; [vm_compute; reflexivity|].
  split; reflexivity.
Defined.

(** A run with failures stops at the first call that fails. *)
Lemma first_failure_Some {num : Type} (fails : event num -> option exn)
    (log done : list (event num)) (x : exn) :
  first_failure fails log = Some (done, x) ->
  exists e rest, log = done ++ e :: rest /\ fails e = Some x.
Proof.
  revert done. induction log as [|e log IH]; intros done; simpl;
    [discriminate|].
  destruct (fails e) as [x'|] eqn:He.
  - intros [= <- <-]. by exists e, log.
  - destruct (first_failure fails log) as [[done' x']|]; [|discriminate].
    intros [= <- <-]. destruct (IH done' eq_refl) as (e' & rest & -> & He').
    by exists e', rest.
Qed.

Lemma first_failure_None {num : Type} (fails : event num -> option exn)
    (log : list (event num)) :
  (forall e, e ∈ log -> fails e = None) ->
  first_failure fails log = None.
Proof.
  induction log as [|e log IH]; intros Hall; simpl; [done|].
  rewrite (Hall e) by apply list_elem_of_here.
  rewrite IH; [done|]. intros e' He'. apply Hall. by apply list_elem_of_further.
Qed.

(** X13: [convert_annotations] stops on an exception in two ways only. A
    copy or a write fails, and the run ends there with the exception of the
    file system. Or the computation of a label raises: a
    [ZeroDivisionError], in YOLO mode, in the pass over the target set, on
    an image record whose width or height is zero; the last effect is then
    the copy of that image, since line 266 copies the image before line 277
    computes its label. *)
Theorem convert_annotations_failure {num : Type} `{!PyNum num}
    (self : converter num) (env : environment num) (s : gset Z)
    (data : coco_data num) (dir dataset_type : string)
    (records : list string * list string) (is_background : bool)
    (fails : event num -> option exn) (log : list (event num)) (e : exn) :
  with_failures fails
    (convert_annotations self env s data dir dataset_type records
       is_background)
  = (log, Raise e) ->
  (exists failed rest,
      (convert_annotations self env s data dir dataset_type records
         is_background).1 = log ++ failed :: rest
      /\ fails failed = Some e)
  \/ (e = ZeroDivisionError
      /\ is_background = false
      /\ convert_to_yolo self = true
      /\ exists img log',
           img ∈ images data
           /\ num_is_zero (width img) || num_is_zero (height img) = true
           /\ log = log' ++ [Copy (path_join dir [file_name img])
                               (path_join (output_dir self)
                                  [dataset_type; "images"])]).
Proof.
  unfold with_failures.
  destruct (first_failure fails _) as [[done x]|] eqn:Hfirst.
  - intros [= -> ->]. left. by apply first_failure_Some in Hfirst.
  - unfold convert_annotations. intros Hrun. right.
    destruct (io_foldl _ _ _) as [log0 r] eqn:Hloop.
    injection Hrun as -> ->.
    destruct (convert_loop_failure self data dir dataset_type is_background
                (iter_ids env s) records log e Hloop)
      as (He & Hbackground & Hyolo & img & log' & Hin & Hzero & Hlog).
    repeat split; [done..|]. by exists img, log'.
Qed.

Lemma convert_annotations_failure_witness :
  with_failures no_failure
    (convert_annotations cats_half_background (train_only cat_on_flat_image)
       {[1]} cat_on_flat_image "coco/images/train2017" "train" ([], []) false)
  = ([Copy "coco/images/train2017/1.jpg" "new_dataset/train/images"],
     Raise ZeroDivisionError)
  /\ with_failures no_image_file
       (convert_annotations cats_half_background (train_only cat_with_dog)
          {[1]} cat_with_dog "coco/images/train2017" "train" ([], []) false)
     = ([], Raise OSError).
Proof.
  split.
  - destruct (convert_annotations_failure cats_half_background
                (train_only cat_on_flat_image) {[1]} cat_on_flat_image
                "coco/images/train2017" "train" ([], []) false no_failure
                [Copy "coco/images/train2017/1.jpg"
                      "new_dataset/train/images"] ZeroDivisionError)
      as [(failed & rest & _ & Hfails)|_].
    + vm_compute. reflexivity.
    + discriminate.
    + vm_compute. reflexivity.
  - vm_compute. reflexivity.
Defined.

(** X14: in the pass over the target set ([is_background] false), for an id
    returned by the first scan and an image record of non-zero width and
    height, the YOLO label content that line 277 computes has at least one
    line. (A later pass over the background set can write the label file of
    the same image again, empty.) *)
Theorem target_image_label_not_empty {num : Type} `{!PyNum num}
    (self : converter num) (data : coco_data num) (n : option Z)
    (targets : gset Z) (id : Z) (img : image num) :
  extract_images_id self data true n false = Ok targets ->
  id ∈ targets ->
  convert_to_yolo self = true ->
  num_is_zero (width img) = false ->
  num_is_zero (height img) = false ->
  exists line lines,
    label_payload self data img id false = Ok (LabelText (line :: lines)).
Proof.
  unfold extract_images_id. rewrite target_scan, (left_id_L ∅ (∪)).
  intros [= <-] (ann & Hin & Hid & Hm)%elem_of_target_ids Hyolo Hw Hh.
  unfold label_payload. rewrite Hyolo.
  destruct (coco_to_yolo_format_lines self img
              (filter (fun a => image_id a = id) (annotations data))
              data Hw Hh) as (lines & -> & Hall).
  cbn [mbind result_bind].
  assert (ann ∈ List.filter (matched self data)
                  (filter (fun a => image_id a = id) (annotations data)))
    as Hann.
  { apply list_elem_of_In, filter_In. split; [|done].
    apply list_elem_of_In. by apply list_elem_of_filter. }
  destruct Hall as [|a line rest lines' _ _]; [by apply elem_of_nil in Hann|].
  by exists line, lines'.
Qed.

Lemma target_image_label_not_empty_witness :
  exists line lines,
    label_payload cats_half_background cat_with_dog (small_image 1) 1 false
    = Ok (LabelText (line :: lines)).
Proof.
  apply (target_image_label_not_empty cats_half_background cat_with_dog None
           {[1]}).
  - vm_compute. reflexivity.
  - set_solver.
  - reflexivity.
  - vm_compute. reflexivity.
  - vm_compute. reflexivity.
Defined.

Lemma train_valid_manifest_witness :
  exists log data' targets background log',
    process_annotated cats_merged (train_only cat_with_dog) "train"
      (coco_image_dir_train cats_merged) (Some "new_class") cat_with_dog
    = (log, Ok tt)
    /\ select_images cats_merged data' = Ok (targets, background)
    /\ log = log'
             ++ [WriteFile "new_dataset/train.txt"
                   (Manifest
                      (String.concat newline
                         (relative_image_paths "train"
                            (materialized data'
                               (elements targets ++ elements background)))));
                 Print (MsgStored "train" "new_dataset/train.txt"
                          (length (relative_image_paths "train"
                                     (materialized data'
                                        (elements targets
                                         ++ elements background)))))].
Proof.
  edestruct (train_valid_manifest cats_merged (train_only cat_with_dog)
               "train" (coco_image_dir_train cats_merged) (Some "new_class")
               cat_with_dog)
    as (data' & targets & background & log' & _ & Hsel & Hlog).
  - split; intros s; reflexivity.
  - vm_compute. reflexivity.
  - eexists _, data', targets, background, log'.
    split; [vm_compute; reflexivity|]. split; [exact Hsel|exact Hlog].
Defined.

(** * The test split *)

Section TestSplit.
Context {num : Type} `{!PyNum num}.
Variable self : converter num.

Lemma test_copy_loop (filenames : list string) (images_record : list string) :
  io_foldl (fun images_record filename =>
              let original_filename :=
                path_join (coco_image_dir_test self) [filename] in
              let new_filename :=
                path_join (output_dir self) ["test"; "images"; filename] in
              (run emit (Copy original_filename new_filename);
               io_ret (images_record ++ [new_filename]))%io)
           images_record filenames
  = (test_copies self filenames,
     Ok (images_record ++ test_paths self filenames) : result (list string)).
Proof.
  revert images_record.
  induction filenames as [|f fs IH]; intros images_record; cbn [io_foldl].
  - unfold io_ret, test_copies, test_paths. simpl. by rewrite app_nil_r.
  - cbn [io_bind emit io_ret app]. rewrite IH.
    unfold test_copies, test_paths. cbn [fmap list_fmap app].
    by rewrite <- app_assoc.
Qed.

(** The test branch once the files are chosen. *)
Lemma process_test_tail dataset_type (filenames : list string) :
  (do images_record <-
     io_foldl (fun images_record filename =>
                 let original_filename :=
                   path_join (coco_image_dir_test self) [filename] in
                 let new_filename :=
                   path_join (output_dir self) ["test"; "images"; filename] in
                 run emit (Copy original_filename new_filename);
                 io_ret (images_record ++ [new_filename]))
              [] filenames;
   let list_path := path_join (output_dir self) [dataset_type +:+ ".txt"] in
   run emit (WriteFile list_path
               (Manifest (String.concat newline images_record)));
   emit (Print (MsgTestStored dataset_type list_path
                  (length images_record))))%io
  = (test_copies self filenames
     ++ test_manifest_events self dataset_type filenames, Ok tt).
Proof. rewrite test_copy_loop. reflexivity. Qed.


(** The branch that takes the files of the images with a target class. *)
Lemma process_test_target_files (env : environment num) dataset_type
    coco_annotation_file (data : coco_data num) :
  test_only_target_classes self = true ->
  truthy_int (test_num_images self) = false ->
  read_annotations env coco_annotation_file = Some data ->
  process_test self env dataset_type coco_annotation_file
  = (missing_image_messages self data (annotations data)
     ++ test_copies self
          (iter_names env (target_names self data (annotations data)))
     ++ test_manifest_events self dataset_type
          (iter_names env (target_names self data (annotations data))),
     Ok tt).
Proof.
  intros Honly Hcap Hfile. unfold process_test.
  rewrite Honly, Hfile, Hcap.
  unfold extract_images_filename. rewrite extract_filenames_target_loop.
  rewrite (left_id_L ∅ (∪)).
  cbn [io_bind io_ret lift app]. rewrite process_test_tail.
  by rewrite !app_nil_r.
Qed.

End TestSplit.

(** X16: with [test_only_target_classes] unset and [test_num_images] absent
    or 0, the test branch does not read the annotation file. Given the
    listing of the test image directory, its effects are the copies of the
    listed files, in the order of the listing, to
    [<output_dir>/test/images/], then the writing of the manifest of the
    paths of these copies; it returns when none of these copies and writes
    fails, and stops at the first that does. *)
Theorem test_split_copies_every_file {num : Type} `{!PyNum num}
    (self : converter num) (env : environment num)
    (dataset_type coco_annotation_file : string)
    (fails : event num -> option exn) :
  test_only_target_classes self = false ->
  truthy_int (test_num_images self) = false ->
  let effects :=
    test_copies self (listdir env (coco_image_dir_test self))
    ++ test_manifest_events self dataset_type
         (listdir env (coco_image_dir_test self)) in
  process_test self env dataset_type coco_annotation_file = (effects, Ok tt)
  /\ ((forall e, e ∈ effects -> fails e = None) ->
      with_failures fails
        (process_test self env dataset_type coco_annotation_file)
      = (effects, Ok tt))
  /\ (forall done x,
        first_failure fails effects = Some (done, x) ->
        with_failures fails
          (process_test self env dataset_type coco_annotation_file)
        = (done, Raise x)).
Proof.
  intros Honly Hcap effects.
  assert (process_test self env dataset_type coco_annotation_file
          = (effects, Ok tt)) as Hrun.
  { unfold process_test. rewrite Honly, Hcap.
    cbn [negb]. unfold io_ret at 1. rewrite io_bind_ret.
    unfold lift at 1. rewrite io_bind_ret.
    apply process_test_tail. }
  split; [exact Hrun|]. rewrite Hrun. unfold with_failures. cbn [fst].
  split.
  - intros Hnone. by rewrite first_failure_None.
  - by intros done x ->.
Qed.

Lemma test_split_copies_every_file_witness :
  process_test all_defaults (train_only cat_with_dog) "test"
    (coco_annotation_test all_defaults)
  = ([Copy "coco/images/test2017/000000000001.jpg"
           "new_dataset/test/images/000000000001.jpg";
      WriteFile "new_dataset/test.txt"
        (Manifest "new_dataset/test/images/000000000001.jpg");
      Print (MsgTestStored "test" "new_dataset/test.txt" 1)],
     Ok tt)
  /\ with_failures no_image_file
       (process_test all_defaults (train_only cat_with_dog) "test"
          (coco_annotation_test all_defaults))
     = ([], Raise OSError).
Proof.
  destruct (test_split_copies_every_file all_defaults
              (train_only cat_with_dog) "test"
              (coco_annotation_test all_defaults) no_image_file)
    as (Hrun & _ & Hstop); [reflexivity..|].
  split; [exact Hrun|]. by apply Hstop.
Defined.

(** X17: with [test_only_target_classes] set, an annotation file for the test
    split and no [test_num_images], the test branch prints a message for each
    annotation of a target class whose image has no record, copies from the
    test image directory the files named by the records of the images that
    carry a target class, in the iteration order of their set, and writes
    the manifest of the copies; it writes no label file. *)
Theorem test_split_copies_target_files {num : Type} `{!PyNum num}
    (self : converter num) (env : environment num)
    (dataset_type coco_annotation_file : string) (data : coco_data num) :
  test_only_target_classes self = true ->
  truthy_int (test_num_images self) = false ->
  read_annotations env coco_annotation_file = Some data ->
  let filenames :=
    iter_names env (target_names self data (annotations data)) in
  process_test self env dataset_type coco_annotation_file
  = (missing_image_messages self data (annotations data)
     ++ test_copies self filenames
     ++ test_manifest_events self dataset_type filenames,
     Ok tt).
Proof.
  intros Honly Hcap Hfile filenames. unfold process_test.
  rewrite Honly, Hfile, Hcap.
  unfold extract_images_filename. rewrite extract_filenames_target_loop.
  rewrite (left_id_L ∅ (∪)). fold filenames.
  cbn [io_bind io_ret lift app]. rewrite process_test_tail.
  by rewrite !app_nil_r.
Qed.

Lemma test_split_copies_target_files_witness :
  process_test cats_test_filtered (test_annotated cat_with_dog) "test"
    (coco_annotation_test cats_test_filtered)
  = ([Copy "coco/images/test2017/1.jpg" "new_dataset/test/images/1.jpg";
      WriteFile "new_dataset/test.txt"
        (Manifest "new_dataset/test/images/1.jpg");
      Print (MsgTestStored "test" "new_dataset/test.txt" 1)],
     Ok tt).
Proof.
  rewrite (test_split_copies_target_files cats_test_filtered
             (test_annotated cat_with_dog) "test" _ cat_with_dog);
    [vm_compute|..]; reflexivity.
Defined.

(** X18: with [test_only_target_classes] unset, a [test_num_images] that is
    negative or greater than the number of files of the test image directory
    makes the test split fail with [ValueError] before any file is copied and
    without a manifest. *)
Theorem oversized_test_sample_raises {num : Type} `{!PyNum num}
    (self : converter num) (env : environment num)
    (coco_annotation_file coco_image_dir : string)
    (single_class_name : option string) (k : Z) :
  test_only_target_classes self = false ->
  test_num_images self = Some k ->
  k < 0 \/ Z.of_nat (length (listdir env (coco_image_dir_test self))) < k ->
  process_dataset self env "test" coco_annotation_file coco_image_dir
    single_class_name
  = ([Print (MsgProcessing "test")], Raise ValueError).
Proof.
  intros Honly Hcap Hk. unfold process_dataset, process_test.
  rewrite Honly, Hcap. change (default 0 (Some k)) with k.
  cbn [truthy_int].
  assert ((k =? 0) = false) as -> by lia. cbn [negb].
  unfold random_sample.
  assert ((0 <=? k)
          && (k <=? Z.of_nat (length (listdir env (coco_image_dir_test self))))
          = false) as ->.
  { apply andb_false_iff. destruct Hk; [left|right]; lia. }
  reflexivity.
Qed.

Lemma oversized_test_sample_raises_witness :
  process_dataset five_test_images (train_only cat_with_dog) "test"
    (coco_annotation_test five_test_images)
    (coco_image_dir_test five_test_images) None
  = ([Print (MsgProcessing "test")], Raise ValueError).
Proof.
  apply (oversized_test_sample_raises five_test_images
           (train_only cat_with_dog) _ _ None 5).
  - reflexivity.
  - reflexivity.
  - right. simpl. lia.
Defined.

(** X23: with [test_only_target_classes] and a non-zero [test_num_images],
    line 70 gives [random.sample] the set that [extract_images_filename]
    returned. Where [random.sample] takes no set (Python 3.11 and later) the
    test split stops there with [TypeError]: it has printed the messages of
    the images without a record and has copied nothing. Where it takes one,
    the branch samples the file names in iteration order, fails with
    [ValueError] for a count that is negative or greater than their number,
    and otherwise copies the sample and writes its manifest. *)
Theorem filtered_test_sample {num : Type} `{!PyNum num}
    (self : converter num) (env : environment num)
    (dataset_type coco_annotation_file : string) (data : coco_data num)
    (k : Z) :
  test_only_target_classes self = true ->
  test_num_images self = Some k ->
  k <> 0 ->
  read_annotations env coco_annotation_file = Some data ->
  let names := iter_names env (target_names self data (annotations data)) in
  process_test self env dataset_type coco_annotation_file
  = if sample_accepts_set env then
      if (0 <=? k) && (k <=? Z.of_nat (length names)) then
        (missing_image_messages self data (annotations data)
         ++ test_copies self (random_choice env names k)
         ++ test_manifest_events self dataset_type
              (random_choice env names k),
         Ok tt)
      else
        (missing_image_messages self data (annotations data),
         Raise ValueError)
    else
      (missing_image_messages self data (annotations data), Raise TypeError).
Proof.
  intros Honly Hcap Hk Hfile names. unfold process_test.
  rewrite Honly, Hfile, Hcap.
  assert (truthy_int (Some k) = true) as ->
    by (apply negb_true_iff, Z.eqb_neq, Hk).
  unfold extract_images_filename. rewrite extract_filenames_target_loop.
  rewrite (left_id_L ∅ (∪)).
  unfold random_sample_of_set, random_sample. subst names.
  change (default 0 (Some k)) with k.
  cbn [io_bind io_ret lift app].
  destruct (sample_accepts_set env);
    [|cbn [io_bind io_ret lift app]; by rewrite app_nil_r].
  destruct ((0 <=? k) && (k <=? Z.of_nat (length _)));
    cbn [io_bind io_ret lift app]; [|by rewrite ?app_nil_r].
  rewrite process_test_tail. by rewrite ?app_nil_r.
Qed.

Lemma filtered_test_sample_witness :
  process_test one_filtered_test_image (test_annotated cat_with_dog) "test"
    (coco_annotation_test one_filtered_test_image)
  = ([], Raise TypeError).
Proof.
  rewrite (filtered_test_sample one_filtered_test_image
             (test_annotated cat_with_dog) "test" _ cat_with_dog 1);
    [vm_compute|..]; done.
Defined.

(** * When a split returns *)

Lemma io_bind_Ok_intro {num A B : Type} (m : io num A) (k : A -> io num B)
    log1 a log2 b :
  m = (log1, Ok a) -> k a = (log2, Ok b) ->
  io_bind m k = (log1 ++ log2, Ok b).
Proof. intros -> Hk. simpl. by rewrite Hk. Qed.

Section SplitReturns.
Context {num : Type} `{!PyNum num}.
Variable self : converter num.

Lemma convert_annotations_returns env s (data : coco_data num) dir
    dataset_type records is_background :
  Forall has_size (images data) ->
  exists log out,
    convert_annotations self env s data dir dataset_type records
      is_background = (log, Ok out).
Proof.
  intros Hsizes.
  destruct (convert_annotations self env s data dir dataset_type records
              is_background) as [log [out|e]] eqn:Hrun; [by eexists _, _|].
  apply convert_loop_failure
    in Hrun as (_ & _ & _ & img & log' & Hin & Hzero & _).
  rewrite Forall_forall in Hsizes. destruct (Hsizes img Hin) as [Hw Hh].
  rewrite Hw, Hh in Hzero. discriminate.
Qed.

End SplitReturns.

(** The statements of a split raise nothing when the images have a size and
    the catalog allows the merge. *)
Lemma process_annotated_total {num : Type} `{!PyNum num}
    (self : converter num) (env : environment num)
    (dataset_type dir : string) (single : option string)
    (data : coco_data num) :
  Forall has_size (images data) ->
  categories data <> [] \/ truthy_str single = false ->
  exists log,
    process_annotated self env dataset_type dir single data = (log, Ok tt).
Proof.
  intros Hsizes Hcats.
  assert (exists data',
             (if truthy_str single then lift (create_new_class self data)
              else io_ret data) = (([], Ok data') : io num (coco_data num))
             /\ images data' = images data) as (data' & Hcreate & Himgs).
  { destruct (truthy_str single).
    - destruct Hcats as [Hcats|?]; [|done].
      destruct (create_new_class_returns self data Hcats) as [data' Hcreate].
      exists data'. rewrite Hcreate. split; [done|].
      by apply create_new_class_inv in Hcreate
        as [->|(m & _ & Hi & _)].
    - by exists data. }
  rewrite <- Himgs in Hsizes.
  destruct (select_images_total self data') as (targets & background & Hsel).
  destruct (convert_annotations_returns self env targets data' dir
              dataset_type ([], []) false Hsizes) as (l1 & rec1 & Hconv1).
  assert (exists l2 rec2,
             (if negb (bool_decide (background = ∅)) then
                (run emit (Print (MsgConvertingBackground dataset_type
                                    (background_percentage self)));
                 convert_annotations self env background data' dir
                   dataset_type rec1 true)%io
              else io_ret rec1) = (l2, Ok rec2)) as (l2 & rec2 & Hconv2).
  { destruct (negb _); [|by eexists _, _].
    destruct (convert_annotations_returns self env background data' dir
                dataset_type rec1 true Hsizes) as (l2 & rec2 & Hrun).
    eexists _, rec2. eapply io_bind_Ok_intro; [reflexivity|exact Hrun]. }
  unfold process_annotated. eexists.
  eapply io_bind_Ok_intro; [reflexivity|].
  eapply io_bind_Ok_intro; [exact Hcreate|].
  eapply io_bind_Ok_intro; [by rewrite Hsel|]. cbn [fst snd].
  eapply io_bind_Ok_intro; [reflexivity|].
  eapply io_bind_Ok_intro; [exact Hconv1|].
  eapply io_bind_Ok_intro; [exact Hconv2|].
  eapply io_bind_Ok_intro; [reflexivity|].
  eapply io_bind_Ok_intro; reflexivity.
Qed.

(** X19: a train or valid split with an annotation file returns when none of
    its copies and writes fails, every image record has a non-zero width and
    height and, if merging into a single class is asked for, the catalog has
    at least one category. *)
Theorem process_annotated_returns {num : Type} `{!PyNum num}
    (self : converter num) (env : environment num)
    (dataset_type dir : string) (single : option string)
    (data : coco_data num) (fails : event num -> option exn) :
  Forall has_size (images data) ->
  categories data <> [] \/ truthy_str single = false ->
  (forall e,
      e ∈ (process_annotated self env dataset_type dir single data).1 ->
      fails e = None) ->
  exists log,
    with_failures fails
      (process_annotated self env dataset_type dir single data)
    = (log, Ok tt).
Proof.
  intros Hsizes Hcats Hfs.
  destruct (process_annotated_total self env dataset_type dir single data
              Hsizes Hcats) as [log Hrun].
  exists log. unfold with_failures. by rewrite first_failure_None.
Qed.

Lemma process_annotated_returns_witness :
  exists log,
    with_failures no_failure
      (process_annotated cats_merged (train_only cat_with_dog) "train"
         (coco_image_dir_train cats_merged) (Some "new_class") cat_with_dog)
    = (log, Ok tt).
Proof.
  apply process_annotated_returns.
  - repeat constructor; vm_compute; reflexivity.
  - left. discriminate.
  - done.
Defined.

(** * The name of a label file *)

Lemma rfind_from_spec (c : ascii) (l : list ascii) (i : nat)
    (acc : option nat) :
  (rfind_from c l i acc = acc /\ Forall (fun x => x <> c) l)
  \/ exists j,
       rfind_from c l i acc = Some (i + j)%nat
       /\ l !! j = Some c
       /\ Forall (fun x => x <> c) (drop (S j) l).
Proof.
  revert i acc. induction l as [|x l IH]; intros i acc; simpl.
  - left. by split.
  - destruct (IH (S i) (if bool_decide (x = c) then Some i else acc))
      as [[Hr Hall]|(j & Hr & Hj & Hall)].
    + rewrite Hr. case_bool_decide as Hx.
      * right. exists 0%nat. rewrite Nat.add_0_r. subst x.
        by repeat split.
      * left. split; [done|]. by constructor.
    + right. exists (S j). rewrite Hr. split; [f_equal; lia|]. by split.
Qed.

Lemma rfind_Some (c : ascii) (l : list ascii) (k : nat) :
  rfind c l = Some k ->
  l !! k = Some c /\ Forall (fun x => x <> c) (drop (S k) l).
Proof.
  unfold rfind.
  destruct (rfind_from_spec c l 0 None) as [[-> _]|(j & -> & Hj & Hall)];
    [discriminate|].
  intros [= <-]. by split.
Qed.

Lemma rfind_None (c : ascii) (l : list ascii) :
  rfind c l = None -> Forall (fun x => x <> c) l.
Proof.
  unfold rfind.
  destruct (rfind_from_spec c l 0 None) as [[_ Hall]|(j & -> & _)];
    [done|discriminate].
Qed.

Lemma string_of_list_ascii_app (l1 l2 : list ascii) :
  String.string_of_list_ascii (l1 ++ l2)
  = String.string_of_list_ascii l1 +:+ String.string_of_list_ascii l2.
Proof. induction l1 as [|x l1 IH]; simpl; [done|]. by rewrite IH. Qed.

Lemma append_empty_r (s : string) : s +:+ EmptyString = s.
Proof.
  induction s as [|c s IH]; [reflexivity|].
  change (String c (s +:+ EmptyString) = String c s). f_equal. exact IH.
Qed.

(** X20: the name of a label file keeps the stem of the image file name:
    [splitext_root] removes at most a final extension, that is a dot
    followed by characters that are neither a dot nor a slash, and leaves
    the name whole when it has no such extension. *)
Theorem splitext_root_removes_extension (p : string) :
  exists ext,
    p = splitext_root p +:+ ext
    /\ (ext = EmptyString
        \/ exists rest,
             ext = String "."%char rest
             /\ Forall (fun c => c <> "."%char /\ c <> "/"%char)
                       (String.list_ascii_of_string rest)).
Proof.
  unfold splitext_root. cbv zeta.
  set (l := String.list_ascii_of_string p).
  destruct (rfind "."%char l) as [dot|] eqn:Hdot;
    [|exists EmptyString; rewrite append_empty_r; split; [done|by left]].
  destruct (bool_decide _ && existsb _ _) eqn:Hcond;
    [|exists EmptyString; rewrite append_empty_r; split; [done|by left]].
  apply andb_true_iff in Hcond as [Hstart%bool_decide_eq_true _].
  apply rfind_Some in Hdot as [Hat Hnodot].
  exists (String.string_of_list_ascii (drop dot l)). split.
  - rewrite <- string_of_list_ascii_app, take_drop.
    subst l. by rewrite String.string_of_list_ascii_of_string.
  - right. exists (String.string_of_list_ascii (drop (S dot) l)).
    rewrite (drop_S l "."%char dot Hat). split; [done|].
    rewrite String.list_ascii_of_string_of_list_ascii.
    assert (Forall (fun x => x <> "/"%char) (drop (S dot) l)) as Hnosep.
    { destruct (rfind "/"%char l) as [sep|] eqn:Hsep.
      - apply rfind_Some in Hsep as [_ Hall]. simpl in Hstart.
        replace (S dot) with (S sep + (S dot - S sep))%nat by lia.
        rewrite <- drop_drop. by apply Forall_drop.
      - apply Forall_drop. by apply rfind_None. }
    rewrite Forall_forall in Hnodot, Hnosep. apply Forall_forall.
    intros c Hc. split; [by apply Hnodot|by apply Hnosep].
Qed.

(** * Missing annotation files *)



(** * Two runs on the same data *)

(** C10 (amended): the sets returned by [extract_images_id] and
    [extract_images_filename] are functions of the annotation data, of
    [target_classes], of [background_percentage] and of the arguments of the
    call (among them the size of the target set): two runs that agree on
    these return equal sets, whatever the other options, the choices of
    [random.sample] and the iteration order of sets are. A run has two
    sources of variation: the sampling of [test_num_images], and the order
    in which the interpreter iterates a set. Without [test_num_images], two
    runs that iterate sets in the same order are the same run, whatever
    [random.sample] would choose; and two runs that iterate them in
    different orders copy the same files for the filtered test split, in
    another order. *)
Theorem image_selection_deterministic {num : Type} `{!PyNum num}
    (self1 self2 : converter num) (data : coco_data num)
    (extract_target_images : bool) (num_img_with_target_classes : option Z)
    (extract_all : bool) (env1 env2 : environment num) :
  target_classes self1 = target_classes self2 ->
  background_percentage self1 = background_percentage self2 ->
  (forall path, read_annotations env1 path = read_annotations env2 path) ->
  (forall dir, listdir env1 dir = listdir env2 dir) ->
  extract_images_id self1 data extract_target_images
    num_img_with_target_classes extract_all
  = extract_images_id self2 data extract_target_images
      num_img_with_target_classes extract_all
  /\ extract_images_filename self1 data extract_target_images
       num_img_with_target_classes extract_all
     = extract_images_filename self2 data extract_target_images
         num_img_with_target_classes extract_all
  /\ (truthy_int (test_num_images self1) = false ->
      (forall s, iter_ids env1 s = iter_ids env2 s) ->
      (forall s, iter_names env1 s = iter_names env2 s) ->
      init self1 env1 = init self1 env2)
  /\ (truthy_int (test_num_images self1) = false ->
      test_only_target_classes self1 = true ->
      iterates_sets env1 ->
      iterates_sets env2 ->
      forall coco_annotation_file test_data,
        read_annotations env1 coco_annotation_file = Some test_data ->
        let names := target_names self1 test_data (annotations test_data) in
        iter_names env1 names ≡ₚ iter_names env2 names
        /\ process_test self1 env1 "test" coco_annotation_file
           = (missing_image_messages self1 test_data (annotations test_data)
              ++ test_copies self1 (iter_names env1 names)
              ++ test_manifest_events self1 "test" (iter_names env1 names),
              Ok tt)
        /\ process_test self1 env2 "test" coco_annotation_file
           = (missing_image_messages self1 test_data (annotations test_data)
              ++ test_copies self1 (iter_names env2 names)
              ++ test_manifest_events self1 "test" (iter_names env2 names),
              Ok tt)).
Proof.
  intros Htargets Hpercentage Hfiles Hdirs. split; [|split; [|split]].
  - unfold extract_images_id. destruct extract_all; [done|].
    by apply extract_ids_loop_ext.
  - unfold extract_images_filename. destruct extract_all; [done|].
    by apply extract_filenames_loop_ext.
  - intros Hcap Hids Hnames. by apply init_same_world.
  - intros Hcap Honly [_ Hiter1] [_ Hiter2] file test_data Hfile names.
    split; [by rewrite Hiter1, Hiter2|].
    split; apply process_test_target_files; try done.
    by rewrite <- Hfiles.
Qed.

Lemma reverse_elements_iterates {num : Type} (data : coco_data num) :
  iterates_sets (test_annotated data)
  /\ iterates_sets (test_annotated_reversed data).
Proof.
  repeat split; intros s; simpl; try done. apply reverse_Permutation.
Qed.

Lemma image_selection_deterministic_witness :
  extract_images_id cats_half_background cats_then_dogs false (Some 10) false
  = extract_images_id cats_half_background_elsewhere cats_then_dogs false
      (Some 10) false
  /\ init cats_half_background (train_only cats_then_dogs)
     = init cats_half_background (train_only_reversed cats_then_dogs)
  /\ exists names1 names2,
       names1 ≡ₚ names2
       /\ (process_test cats_test_filtered (test_annotated ten_cats) "test"
             (coco_annotation_test cats_test_filtered)).1
          = test_copies cats_test_filtered names1
            ++ test_manifest_events cats_test_filtered "test" names1
       /\ (process_test cats_test_filtered (test_annotated_reversed ten_cats)
             "test" (coco_annotation_test cats_test_filtered)).1
          = test_copies cats_test_filtered names2
            ++ test_manifest_events cats_test_filtered "test" names2.
Proof.
  destruct (image_selection_deterministic cats_half_background
              cats_half_background_elsewhere cats_then_dogs false (Some 10)
              false (train_only cats_then_dogs)
              (train_only_reversed cats_then_dogs))
    as (Hids & _ & Hinit & _);
    [reflexivity|reflexivity|by intros path|by intros dir|].
  split; [exact Hids|].
  split; [apply Hinit; [reflexivity|by intros s|by intros s]|].
  destruct (image_selection_deterministic cats_test_filtered
              cats_test_filtered ten_cats false None false
              (test_annotated ten_cats) (test_annotated_reversed ten_cats))
    as (_ & _ & _ & Horder);
    [reflexivity|reflexivity|by intros path|by intros dir|].
  destruct (Horder eq_refl eq_refl (proj1 (reverse_elements_iterates _))
              (proj2 (reverse_elements_iterates _))
              (coco_annotation_test cats_test_filtered) ten_cats eq_refl)
    as (Hperm & Hrun1 & Hrun2).
  eexists _, _. split; [exact Hperm|].
  rewrite Hrun1, Hrun2. split; reflexivity.
Defined.

(** With [--target_classes cat --test_only_target_classes 1] and no
    [test_num_images], on the same files, two interpreters that iterate a
    set of file names in opposite orders write two different test
    manifests. *)
Lemma test_manifest_follows_iteration_order :
  test_num_images cats_test_filtered = None
  /\ read_annotations (test_annotated_reversed (ten_cats (num := float)))
     = read_annotations (test_annotated ten_cats)
  /\ listdir (test_annotated_reversed (ten_cats (num := float)))
     = listdir (test_annotated ten_cats)
  /\ random_choice (test_annotated_reversed (ten_cats (num := float)))
     = random_choice (test_annotated ten_cats)
  /\ iterates_sets (test_annotated (ten_cats (num := float)))
  /\ iterates_sets (test_annotated_reversed (ten_cats (num := float)))
  /\ written (init cats_test_filtered (test_annotated ten_cats)).1
             "new_dataset/test.txt"
     <> written (init cats_test_filtered (test_annotated_reversed ten_cats)).1
                "new_dataset/test.txt".
Proof.
  repeat split; try apply reverse_elements_iterates.
  vm_compute. discriminate.
Qed.
